(** * Solidity AST parser (package parser): extraction engine, loader, registry

    A shallow embedding of parser.go: the node structures json.Unmarshal
    fills, the type renderer [extractTypeName], the value reconstructor
    [extractValue] / [extractValueFromNode] / [extractFunctionCall], the
    extraction engine [ExtractContractInfoFromAST], the document loader
    [ParseContractFile] and the registry builder [ParseAllContracts].

    Conventions.
    - A Go string is a [string]; a slice is a [list] (a nil slice and an
      empty one are both [[]], the program never tells them apart); a
      pointer that may be nil is an [option]; Go's [int] is a [Z].
    - A function that mutates the [*Contract] it receives takes the contract
      and returns the updated one.
    - A function returning [(T, error)] returns [result T].
    - [fmt.Printf] diagnostics written to standard output are not modelled. *)

From Stdlib Require Import PrimFloat ZArith Ascii String.
From stdpp Require Import base strings list gmap.

Set Warnings "-register-all".
Set Default Proof Using "Type".

Open Scope string_scope.
Open Scope list_scope.

(** ** Node structures *)

(** [type BaseName struct] and [type BaseContract struct]. *)
Record BaseName := mkBaseName { BaseName_Name : string }.
Record BaseContract := mkBaseContract { BaseContract_BaseName : BaseName }.

(** [type TypeDescriptions struct]. *)
Record TypeDescriptions := mkTypeDescriptions {
  TypeDescriptions_TypeIdentifier : string;
  TypeDescriptions_TypeString : string
}.

(** [type IdentifierPath struct]. *)
Record IdentifierPath := mkIdentifierPath {
  IdentifierPath_ID : Z;
  IdentifierPath_Name : string;
  IdentifierPath_NameLocations : list string;
  IdentifierPath_NodeType : string;
  IdentifierPath_ReferencedDeclaration : Z;
  IdentifierPath_Src : string
}.

(** The structures below refer to each other and to the generic JSON values
    held by their [interface{}] fields.  Each struct is first given as a
    record over the types of its children ([J] generic values, [N] nodes,
    [T] type names); the recursive knot is tied in [JSON] / [ASTNode] /
    [TypeName] further down. *)

(** [type ParameterList struct]. *)
Record ParameterListOf (N : Type) := mkParameterList {
  ParameterList_Parameters : list N
}.
Arguments mkParameterList {N} _.
Arguments ParameterList_Parameters {N} _.

(** [type ModifierInvocation struct]. *)
Record ModifierInvocationOf (N : Type) := mkModifierInvocation {
  ModifierInvocation_ID : Z;
  ModifierInvocation_NodeType : string;
  ModifierInvocation_ModifierName : N;
  ModifierInvocation_Arguments : list N;
  ModifierInvocation_Kind : string;
  ModifierInvocation_Src : string
}.
Arguments mkModifierInvocation {N} _ _ _ _ _ _.
Arguments ModifierInvocation_ID {N} _.
Arguments ModifierInvocation_NodeType {N} _.
Arguments ModifierInvocation_ModifierName {N} _.
Arguments ModifierInvocation_Arguments {N} _.
Arguments ModifierInvocation_Kind {N} _.
Arguments ModifierInvocation_Src {N} _.

(** [type OverrideSpecifier struct]. *)
Record OverrideSpecifierOf (N : Type) := mkOverrideSpecifier {
  OverrideSpecifier_ID : Z;
  OverrideSpecifier_NodeType : string;
  OverrideSpecifier_Overrides : list N;
  OverrideSpecifier_Src : string
}.
Arguments mkOverrideSpecifier {N} _ _ _ _.
Arguments OverrideSpecifier_ID {N} _.
Arguments OverrideSpecifier_NodeType {N} _.
Arguments OverrideSpecifier_Overrides {N} _.
Arguments OverrideSpecifier_Src {N} _.

(** [type TypeName struct]. *)
Record TypeNameOf (J T : Type) := mkTypeNameOf {
  TypeName_NodeType : string;
  TypeName_Name : string;
  TypeName_Path : string;
  TypeName_BaseType : option T;
  TypeName_Length : J;
  TypeName_KeyType : option T;
  TypeName_ValueType : option T;
  TypeName_TypeDescriptions : option TypeDescriptions;
  TypeName_PathNode : option IdentifierPath
}.
Arguments mkTypeNameOf {J T} _ _ _ _ _ _ _ _ _.
Arguments TypeName_NodeType {J T} _.
Arguments TypeName_Name {J T} _.
Arguments TypeName_Path {J T} _.
Arguments TypeName_BaseType {J T} _.
Arguments TypeName_Length {J T} _.
Arguments TypeName_KeyType {J T} _.
Arguments TypeName_ValueType {J T} _.
Arguments TypeName_TypeDescriptions {J T} _.
Arguments TypeName_PathNode {J T} _.

(** [type ASTNode struct], field for field. *)
Record ASTNodeOf (J N T : Type) := mkASTNodeOf {
  ASTNode_ID : Z;
  ASTNode_NodeType : string;
  ASTNode_Name : string;
  ASTNode_AbsolutePath : string;
  ASTNode_File : string;
  ASTNode_BaseContracts : list BaseContract;
  ASTNode_Members : list N;
  ASTNode_Modifiers : list (ModifierInvocationOf N);
  ASTNode_Parameters : option (ParameterListOf N);
  ASTNode_ReturnParameters : option (ParameterListOf N);
  ASTNode_Visibility : string;
  ASTNode_StateMutability : string;
  ASTNode_Kind : string;
  ASTNode_OverloadedDeclarations : list Z;
  ASTNode_BaseFunctions : list Z;
  ASTNode_Overrides : option (OverrideSpecifierOf N);
  ASTNode_FunctionSelector : string;
  ASTNode_StorageLocation : string;
  ASTNode_Constant : bool;
  ASTNode_Mutability : string;
  ASTNode_StateVariable : bool;
  ASTNode_Value : J;
  ASTNode_TypeName : option T;
  ASTNode_Literals : list string;
  ASTNode_Nodes : list N;
  ASTNode_Scope : Z;
  ASTNode_Operator : string;
  ASTNode_SubExpression : option N;
  ASTNode_Expression : option N;
  ASTNode_Arguments : list J;
  ASTNode_HexValue : string;
  ASTNode_IsConstant : bool;
  ASTNode_IsLValue : bool;
  ASTNode_IsPure : bool;
  ASTNode_LeftExpression : option N;
  ASTNode_RightExpression : option N;
  ASTNode_Indexed : option bool
}.
Arguments mkASTNodeOf {J N T}.
Arguments ASTNode_ID {J N T} _.
Arguments ASTNode_NodeType {J N T} _.
Arguments ASTNode_Name {J N T} _.
Arguments ASTNode_AbsolutePath {J N T} _.
Arguments ASTNode_File {J N T} _.
Arguments ASTNode_BaseContracts {J N T} _.
Arguments ASTNode_Members {J N T} _.
Arguments ASTNode_Modifiers {J N T} _.
Arguments ASTNode_Parameters {J N T} _.
Arguments ASTNode_ReturnParameters {J N T} _.
Arguments ASTNode_Visibility {J N T} _.
Arguments ASTNode_StateMutability {J N T} _.
Arguments ASTNode_Kind {J N T} _.
Arguments ASTNode_OverloadedDeclarations {J N T} _.
Arguments ASTNode_BaseFunctions {J N T} _.
Arguments ASTNode_Overrides {J N T} _.
Arguments ASTNode_FunctionSelector {J N T} _.
Arguments ASTNode_StorageLocation {J N T} _.
Arguments ASTNode_Constant {J N T} _.
Arguments ASTNode_Mutability {J N T} _.
Arguments ASTNode_StateVariable {J N T} _.
Arguments ASTNode_Value {J N T} _.
Arguments ASTNode_TypeName {J N T} _.
Arguments ASTNode_Literals {J N T} _.
Arguments ASTNode_Nodes {J N T} _.
Arguments ASTNode_Scope {J N T} _.
Arguments ASTNode_Operator {J N T} _.
Arguments ASTNode_SubExpression {J N T} _.
Arguments ASTNode_Expression {J N T} _.
Arguments ASTNode_Arguments {J N T} _.
Arguments ASTNode_HexValue {J N T} _.
Arguments ASTNode_IsConstant {J N T} _.
Arguments ASTNode_IsLValue {J N T} _.
Arguments ASTNode_IsPure {J N T} _.
Arguments ASTNode_LeftExpression {J N T} _.
Arguments ASTNode_RightExpression {J N T} _.
Arguments ASTNode_Indexed {J N T} _.

(** [JSON]: what json.Unmarshal stores in a field of type [interface{}]:
    nil, bool, float64, string, []interface{} or map[string]interface{}.

    [JObject m d] is a map with the entries [m] (keys pairwise distinct).
    [extractValue] turns such a map into an [ASTNode] by a json.Marshal /
    json.Unmarshal round trip; that round trip is library code, and [d] is
    its outcome for this map: [Some node] for the node it fills, [None] when
    either call reports an error. *)
Inductive JSON : Type :=
| JNull
| JBool (b : bool)
| JNumber (f : float)
| JString (s : string)
| JArray (l : list JSON)
| JObject (m : list (string * JSON)) (d : option ASTNode)
with ASTNode : Type :=
| mkASTNode (fields : ASTNodeOf JSON ASTNode TypeName)
with TypeName : Type :=
| mkTypeName (fields : TypeNameOf JSON TypeName).

Definition ASTNode_fields (node : ASTNode) : ASTNodeOf JSON ASTNode TypeName :=
  let 'mkASTNode f := node in f.
Coercion ASTNode_fields : ASTNode >-> ASTNodeOf.

Definition TypeName_fields (typeName : TypeName) : TypeNameOf JSON TypeName :=
  let 'mkTypeName f := typeName in f.
Coercion TypeName_fields : TypeName >-> TypeNameOf.

Abbreviation ParameterList := (ParameterListOf ASTNode).
Abbreviation ModifierInvocation := (ModifierInvocationOf ASTNode).
Abbreviation OverrideSpecifier := (OverrideSpecifierOf ASTNode).

(** [any]: the values the program passes as [interface{}] to [extractValue]:
    a decoded JSON value (the [Value] field, an element of [Arguments]), or
    a [*ASTNode] (the [SubExpression], [LeftExpression], [RightExpression]
    and [Expression] fields), possibly a nil pointer.  The type switch of
    [extractValue] also lists [int]; no caller supplies one. *)
Inductive any : Type :=
| FromJSON (v : JSON)
| NodePtr (p : option ASTNode).

(** [type AST struct] and [type ABIFile struct]. *)
Record AST := mkAST { AST_Nodes : list ASTNode }.
Record ABIFile := mkABIFile {
  ABIFile_ContractName : string;
  ABIFile_AST : AST
}.

(** ** Domain model *)

Record Import := mkImport {
  Import_AbsolutePath : string;
  Import_File : string;
  Import_Alias : string
}.

Record Variable_ := mkVariable {
  Variable_Name : string;
  Variable_Type : string;
  Variable_Visibility : string;
  Variable_StateVariable : bool;
  Variable_StorageLocation : string;
  Variable_Constant : bool;
  Variable_Mutability : string;
  Variable_FunctionSelector : string;
  Variable_Value : string
}.

Record Parameter_ := mkParameter {
  Parameter_Name : string;
  Parameter_Type : string;
  Parameter_Indexed : bool
}.

Record Function_ := mkFunction {
  Function_Name : string;
  Function_Visibility : string;
  Function_Kind : string;
  Function_StateMutability : string;
  Function_Parameters : list Parameter_;
  Function_ReturnParameters : list Parameter_;
  Function_Modifiers : list string;
  Function_BaseFunctions : list Z;
  Function_Overrides : list string
}.

Record Event := mkEvent {
  Event_Name : string;
  Event_Parameters : list Parameter_
}.

Record Modifier := mkModifier {
  Modifier_Name : string;
  Modifier_Parameters : list Parameter_
}.

Record Struct := mkStruct {
  Struct_Name : string;
  Struct_Members : list Variable_
}.

Record Enum := mkEnum {
  Enum_Name : string;
  Enum_Values : list string
}.

Record Contract := mkContract {
  Contract_Name : string;
  Contract_Pragma : string;
  Contract_Imports : list Import;
  Contract_Inherits : list string;
  Contract_Constructor : option Function_;
  Contract_Variables : list Variable_;
  Contract_Functions : list Function_;
  Contract_Events : list Event;
  Contract_Modifiers : list Modifier;
  Contract_Structs : list Struct;
  Contract_Enums : list Enum;
  Contract_Mappings : list Variable_
}.

(** The zero values of the node structures (what a Go [ASTNode{}] or
    [TypeName{}] literal holds before any field is set). *)
Definition zeroTypeName : TypeName :=
  mkTypeName (mkTypeNameOf "" "" "" None JNull None None None None).

Definition zeroASTNode : ASTNode :=
  mkASTNode
    {| ASTNode_ID := 0; ASTNode_NodeType := ""; ASTNode_Name := "";
       ASTNode_AbsolutePath := ""; ASTNode_File := "";
       ASTNode_BaseContracts := []; ASTNode_Members := [];
       ASTNode_Modifiers := []; ASTNode_Parameters := None;
       ASTNode_ReturnParameters := None; ASTNode_Visibility := "";
       ASTNode_StateMutability := ""; ASTNode_Kind := "";
       ASTNode_OverloadedDeclarations := []; ASTNode_BaseFunctions := [];
       ASTNode_Overrides := None; ASTNode_FunctionSelector := "";
       ASTNode_StorageLocation := ""; ASTNode_Constant := false;
       ASTNode_Mutability := ""; ASTNode_StateVariable := false;
       ASTNode_Value := JNull; ASTNode_TypeName := None;
       ASTNode_Literals := []; ASTNode_Nodes := []; ASTNode_Scope := 0;
       ASTNode_Operator := ""; ASTNode_SubExpression := None;
       ASTNode_Expression := None; ASTNode_Arguments := [];
       ASTNode_HexValue := ""; ASTNode_IsConstant := false;
       ASTNode_IsLValue := false; ASTNode_IsPure := false;
       ASTNode_LeftExpression := None; ASTNode_RightExpression := None;
       ASTNode_Indexed := None |}.

(** ** Errors and results *)

(** A Go [error]: its message ([Error()]) and the error it wraps
    ([Unwrap()], set by the [%w] verb of [fmt.Errorf]). *)
Inductive error : Type :=
| mkError (msg : string) (cause : option error).

Definition error_Error (e : error) : string := let 'mkError msg _ := e in msg.
Definition error_Unwrap (e : error) : option error := let 'mkError _ c := e in c.

(** The value pair [(T, error)] of a function that returns either
    [(v, nil)] or [(nil, err)]. *)
Inductive result (T : Type) : Type :=
| Ok (v : T)
| Err (e : error).
Arguments Ok {T} _.
Arguments Err {T} _.

(** ** Strings *)

(** [strings.Join(elems, sep)]. *)
Definition Join (elems : list string) (sep : string) : string :=
  String.concat sep elems.

(** [s != ""]. *)
Definition nonEmpty (s : string) : bool := negb (String.eqb s "").

(** [filepath.Ext]: the suffix starting at the last dot of the last path
    element; the scan runs from the end of the path and stops at a
    separator. *)
Fixpoint scanExt (rev_path : list ascii) (suffix : string) : string :=
  match rev_path with
  | [] => ""
  | c :: rest =>
      if Ascii.eqb c "/" then ""
      else if Ascii.eqb c "." then String c suffix
      else scanExt rest (String c suffix)
  end.

Definition Ext (path : string) : string :=
  scanExt (rev (list_ascii_of_string path)) "".

(** Map keys in the order [fmt] prints them: ascending. *)
Fixpoint insertByKey (e : string * string) (l : list (string * string))
  : list (string * string) :=
  match l with
  | [] => [e]
  | x :: l' => if String.leb e.1 x.1 then e :: l else x :: insertByKey e l'
  end.

Definition sortByKey (l : list (string * string)) : list (string * string) :=
  foldr insertByKey [] l.

(** ** The inheritance-only parser

    An earlier parser of the repository reads the ABI entries of a document
    and, from its tree, only the inheritance list.  Its node structures have
    fewer fields than the ones above and its [BaseContract] and [BaseName]
    have more; they are given here as that version declares them. *)
Module InheritanceParser.

Record BaseName := mkBaseName {
  BaseName_ID : Z;
  BaseName_Name : string;
  BaseName_NodeType : string;
  BaseName_ReferencedDeclaration : Z;
  BaseName_Src : string
}.

Record BaseContract := mkBaseContract {
  BaseContract_ID : Z;
  BaseContract_NodeType : string;
  BaseContract_Src : string;
  BaseContract_BaseName : BaseName
}.

Record TypeName := mkTypeName {
  TypeName_ID : Z;
  TypeName_Name : string;
  TypeName_NodeType : string;
  TypeName_Src : string;
  TypeName_StateMutability : string;
  TypeName_TypeDescriptions : option TypeDescriptions
}.

Inductive ASTNode : Type := mkASTNode {
  ASTNode_ID : Z;
  ASTNode_NodeType : string;
  ASTNode_Name : string;
  ASTNode_Nodes : list ASTNode;
  ASTNode_BaseContracts : list BaseContract;
  ASTNode_Parameters : option (ParameterListOf ASTNode);
  ASTNode_ReturnParameters : option (ParameterListOf ASTNode);
  ASTNode_Visibility : string;
  ASTNode_StateMutability : string;
  ASTNode_Kind : string;
  ASTNode_TypeName : option TypeName;
  ASTNode_StorageLocation : string
}.

Record AST := mkAST { AST_Nodes : list ASTNode }.

(** [func ExtractInheritanceFromNode(node ASTNode) []string]. *)
Definition ExtractInheritanceFromNode (node : ASTNode) : list string :=
  if String.eqb (ASTNode_NodeType node) "ContractDefinition" then
    fold_left
      (fun inherits baseContract =>
         inherits ++ [BaseName_Name (BaseContract_BaseName baseContract)])
      (ASTNode_BaseContracts node) []
  else [].

(** The loop of [ExtractInheritanceFromAST]; it leaves at the [break]. *)
Fixpoint inheritanceLoop (nodes : list ASTNode) (inherits : list string)
  : list string :=
  match nodes with
  | [] => inherits
  | node :: rest =>
      if String.eqb (ASTNode_NodeType node) "ContractDefinition"
      then inherits ++ ExtractInheritanceFromNode node
      else inheritanceLoop rest inherits
  end.

(** [func ExtractInheritanceFromAST(ast AST) []string]. *)
Definition ExtractInheritanceFromAST (ast : AST) : list string :=
  inheritanceLoop (AST_Nodes ast) [].

(** A node of the given kind and name with the listed base contracts,
    every other field at its zero value. *)
Definition sampleNode (nodeType name : string) (bases : list string)
  : ASTNode :=
  mkASTNode 0 nodeType name []
    (map (fun b => mkBaseContract 0 "InheritanceSpecifier" ""
                     (mkBaseName 0 b "IdentifierPath" 0 ""))
       bases)
    None None "" "" "" None "".

End InheritanceParser.

(** ** The list widget

    [widgets.List] of the terminal library, reduced to the two fields
    [validateSelectedRow] reads and writes. *)
Record widgets_List := mkList {
  List_Rows : list string;
  List_SelectedRow : Z
}.

(** [func validateSelectedRow(list *widgets.List)]: the list as the call
    leaves it. *)
Definition validateSelectedRow (list : widgets_List) : widgets_List :=
  let len := Z.of_nat (length (List_Rows list)) in
  if (len =? 0)%Z then mkList (List_Rows list) 0
  else if (len <=? List_SelectedRow list)%Z
       then mkList (List_Rows list) (len - 1)
  else if (List_SelectedRow list <? 0)%Z then mkList (List_Rows list) 0
  else list.

Section Parser.

(** [fmt]'s rendering of a [float64] under the [%v] verb. *)
Variable formatFloat64 : float -> string.

(** ** The [%v] verb on a decoded JSON value *)
Fixpoint formatV (v : JSON) : string :=
  match v with
  | JNull => "<nil>"
  | JBool b => if b then "true" else "false"
  | JNumber f => formatFloat64 f
  | JString s => s
  | JArray l => "[" +:+ Join (map formatV l) " " +:+ "]"
  | JObject m _ =>
      let entries := map (fun kv => (kv.1, formatV kv.2)) m in
      "map[" +:+
        Join (map (fun e => e.1 +:+ ":" +:+ e.2) (sortByKey entries)) " "
        +:+ "]"
  end.

(** ** Type renderer *)

(** The body of [extractTypeName] for a non-nil [typeName]; the inner
    [extractTypeName] is the recursive call on a child pointer. *)
Fixpoint renderTypeName (typeName : TypeName) : string :=
  let extractTypeName (p : option TypeName) : string :=
    match p with
    | None => ""
    | Some child => renderTypeName child
    end in
  let nodeType := TypeName_NodeType typeName in
  if String.eqb nodeType "ElementaryTypeName" then
    TypeName_Name typeName
  else if String.eqb nodeType "UserDefinedTypeName" then
    if match TypeName_TypeDescriptions typeName with
       | Some td => nonEmpty (TypeDescriptions_TypeString td)
       | None => false
       end
    then match TypeName_TypeDescriptions typeName with
         | Some td => TypeDescriptions_TypeString td
         | None => ""
         end
    else if nonEmpty (TypeName_Name typeName) then
      TypeName_Name typeName
    else match TypeName_PathNode typeName with
         | Some pathNode =>
             if nonEmpty (IdentifierPath_Name pathNode)
             then IdentifierPath_Name pathNode
             else ""
         | None => ""
         end
  else if String.eqb nodeType "Mapping" then
    let keyType := extractTypeName (TypeName_KeyType typeName) in
    let valueType := extractTypeName (TypeName_ValueType typeName) in
    "mapping(" +:+ keyType +:+ " => " +:+ valueType +:+ ")"
  else if String.eqb nodeType "ArrayTypeName" then
    let baseType := extractTypeName (TypeName_BaseType typeName) in
    match TypeName_Length typeName with
    | JNull => baseType +:+ "[]"
    | length => baseType +:+ "[" +:+ formatV length +:+ "]"
    end
  else "".

(** [func extractTypeName(typeName *TypeName) string]. *)
Definition extractTypeName (typeName : option TypeName) : string :=
  match typeName with
  | None => ""
  | Some t => renderTypeName t
  end.

(** ** Value reconstructor *)

(** [func extractFunctionCall(node *ASTNode) string], with the function
    [extractValue] it calls as a parameter. *)
Definition extractFunctionCall_ (extractValue : any -> string)
    (node : option ASTNode) : string :=
  match node with
  | None => ""
  | Some n =>
      match ASTNode_Expression n with
      | None => ""
      | Some expression =>
          let functionName :=
            if String.eqb (ASTNode_NodeType expression) "Identifier"
            then ASTNode_Name expression
            else extractValue (NodePtr (ASTNode_Expression n)) in
          let args :=
            map (fun arg => extractValue (FromJSON arg)) (ASTNode_Arguments n) in
          functionName +:+ "(" +:+ Join args ", " +:+ ")"
      end
  end.

(** [func extractValueFromNode(node *ASTNode) string], with [extractValue]
    as a parameter.  The pointer fields are handed to [extractValue] as they
    are: an [interface{}] holding a [*ASTNode]. *)
Definition extractValueFromNode_ (extractValue : any -> string)
    (node : option ASTNode) : string :=
  match node with
  | None => ""
  | Some n =>
      let nodeType := ASTNode_NodeType n in
      if String.eqb nodeType "Literal" then
        match ASTNode_Value n with
        | JNull => if nonEmpty (ASTNode_HexValue n) then ASTNode_HexValue n else ""
        | value => formatV value
        end
      else if String.eqb nodeType "FunctionCall" then
        extractFunctionCall_ extractValue node
      else if String.eqb nodeType "Identifier" then
        ASTNode_Name n
      else if String.eqb nodeType "UnaryOperation" then
        let operand := extractValue (NodePtr (ASTNode_SubExpression n)) in
        ASTNode_Operator n +:+ operand
      else if String.eqb nodeType "BinaryOperation" then
        let left := extractValue (NodePtr (ASTNode_LeftExpression n)) in
        let right := extractValue (NodePtr (ASTNode_RightExpression n)) in
        "(" +:+ left +:+ " " +:+ ASTNode_Operator n +:+ " " +:+ right +:+ ")"
      else ""
  end.

(** [extractValue] on an [interface{}] that holds a decoded JSON value.
    The type switch of [extractValue] has the cases [string], [float64, int,
    bool] and [map[string]interface{}]; a [[]interface{}] and a [*ASTNode]
    fall to its [default] branch, which returns the empty string. *)
Fixpoint extractValueJSON (value : JSON) : string :=
  let extractValue (value : any) : string :=
    match value with
    | FromJSON v => extractValueJSON v
    | NodePtr _ => ""
    end in
  match value with
  | JNull => ""
  | JString v => v
  | JNumber _ | JBool _ => formatV value
  | JObject _ d =>
      match d with
      | None => ""
      | Some node => extractValueFromNode_ extractValue (Some node)
      end
  | JArray _ => ""
  end.

(** [func extractValue(value interface{}) string]. *)
Definition extractValue (value : any) : string :=
  match value with
  | FromJSON v => extractValueJSON v
  | NodePtr _ => ""
  end.

Definition extractValueFromNode : option ASTNode -> string :=
  extractValueFromNode_ extractValue.

Definition extractFunctionCall : option ASTNode -> string :=
  extractFunctionCall_ extractValue.

(** ** Extraction engine *)

(** Assignments to single fields of the [*Contract] under construction. *)
Definition setName (c : Contract) (v : string) : Contract :=
  let 'mkContract _ p i h k vs fs es ms ss ens mps := c in
  mkContract v p i h k vs fs es ms ss ens mps.
Definition setPragma (c : Contract) (v : string) : Contract :=
  let 'mkContract n _ i h k vs fs es ms ss ens mps := c in
  mkContract n v i h k vs fs es ms ss ens mps.
Definition setImports (c : Contract) (v : list Import) : Contract :=
  let 'mkContract n p _ h k vs fs es ms ss ens mps := c in
  mkContract n p v h k vs fs es ms ss ens mps.
Definition setInherits (c : Contract) (v : list string) : Contract :=
  let 'mkContract n p i _ k vs fs es ms ss ens mps := c in
  mkContract n p i v k vs fs es ms ss ens mps.
Definition setConstructor (c : Contract) (v : option Function_) : Contract :=
  let 'mkContract n p i h _ vs fs es ms ss ens mps := c in
  mkContract n p i h v vs fs es ms ss ens mps.
Definition setVariables (c : Contract) (v : list Variable_) : Contract :=
  let 'mkContract n p i h k _ fs es ms ss ens mps := c in
  mkContract n p i h k v fs es ms ss ens mps.
Definition setFunctions (c : Contract) (v : list Function_) : Contract :=
  let 'mkContract n p i h k vs _ es ms ss ens mps := c in
  mkContract n p i h k vs v es ms ss ens mps.
Definition setEvents (c : Contract) (v : list Event) : Contract :=
  let 'mkContract n p i h k vs fs _ ms ss ens mps := c in
  mkContract n p i h k vs fs v ms ss ens mps.
Definition setModifiers (c : Contract) (v : list Modifier) : Contract :=
  let 'mkContract n p i h k vs fs es _ ss ens mps := c in
  mkContract n p i h k vs fs es v ss ens mps.
Definition setStructs (c : Contract) (v : list Struct) : Contract :=
  let 'mkContract n p i h k vs fs es ms _ ens mps := c in
  mkContract n p i h k vs fs es ms v ens mps.
Definition setEnums (c : Contract) (v : list Enum) : Contract :=
  let 'mkContract n p i h k vs fs es ms ss _ mps := c in
  mkContract n p i h k vs fs es ms ss v mps.
Definition setMappings (c : Contract) (v : list Variable_) : Contract :=
  let 'mkContract n p i h k vs fs es ms ss ens _ := c in
  mkContract n p i h k vs fs es ms ss ens v.

(** [func ExtractPragmaDirective(node ASTNode) string]. *)
Definition ExtractPragmaDirective (node : ASTNode) : string :=
  "pragma " +:+ Join (ASTNode_Literals node) "" +:+ ";".

(** [func ExtractImportDirective(node ASTNode) Import]. *)
Definition ExtractImportDirective (node : ASTNode) : Import :=
  {| Import_AbsolutePath := ASTNode_AbsolutePath node;
     Import_File := ASTNode_File node;
     Import_Alias := ASTNode_Name node |}.

(** [func ExtractVariable(node ASTNode) Variable]. *)
Definition ExtractVariable (node : ASTNode) : Variable_ :=
  {| Variable_Name := ASTNode_Name node;
     Variable_Type := extractTypeName (ASTNode_TypeName node);
     Variable_Visibility := ASTNode_Visibility node;
     Variable_StateVariable := ASTNode_StateVariable node;
     Variable_StorageLocation := ASTNode_StorageLocation node;
     Variable_Constant := ASTNode_Constant node;
     Variable_Mutability := ASTNode_Mutability node;
     Variable_FunctionSelector := ASTNode_FunctionSelector node;
     Variable_Value :=
       match ASTNode_Value node with
       | JNull => ""
       | value => extractValue (FromJSON value)
       end |}.

(** [func ExtractParameter(node ASTNode) Parameter]. *)
Definition ExtractParameter (node : ASTNode) : Parameter_ :=
  {| Parameter_Name := ASTNode_Name node;
     Parameter_Type := extractTypeName (ASTNode_TypeName node);
     Parameter_Indexed :=
       match ASTNode_Indexed node with
       | Some indexed => indexed
       | None => false
       end |}.

(** The loop shared by the builders: the parameters of a possibly nil
    [*ParameterList], each through [ExtractParameter], in order. *)
Definition extractParameters (parameters : option ParameterList)
  : list Parameter_ :=
  match parameters with
  | Some pl => map ExtractParameter (ParameterList_Parameters pl)
  | None => []
  end.

(** [func ExtractModifiers(node ASTNode) []string]. *)
Definition ExtractModifiers (node : ASTNode) : list string :=
  map (fun mod_ : ModifierInvocation =>
         ASTNode_Name (ModifierInvocation_ModifierName mod_))
      (ASTNode_Modifiers node).

(** [func ExtractFunction(node ASTNode) Function]. *)
Definition ExtractFunction (node : ASTNode) : Function_ :=
  {| Function_Name := ASTNode_Name node;
     Function_Kind := ASTNode_Kind node;
     Function_Visibility := ASTNode_Visibility node;
     Function_StateMutability := ASTNode_StateMutability node;
     Function_Modifiers := ExtractModifiers node;
     Function_BaseFunctions := ASTNode_BaseFunctions node;
     Function_Overrides :=
       match ASTNode_Overrides node with
       | Some overrides =>
           map (fun override : ASTNode => ASTNode_Name override)
               (OverrideSpecifier_Overrides overrides)
       | None => []
       end;
     Function_Parameters := extractParameters (ASTNode_Parameters node);
     Function_ReturnParameters :=
       extractParameters (ASTNode_ReturnParameters node) |}.

(** [func ExtractEvent(node ASTNode) Event]. *)
Definition ExtractEvent (node : ASTNode) : Event :=
  {| Event_Name := ASTNode_Name node;
     Event_Parameters := extractParameters (ASTNode_Parameters node) |}.

(** [func ExtractModifier(node ASTNode) Modifier]. *)
Definition ExtractModifier (node : ASTNode) : Modifier :=
  {| Modifier_Name := ASTNode_Name node;
     Modifier_Parameters := extractParameters (ASTNode_Parameters node) |}.

(** [func ExtractStruct(node ASTNode) Struct]. *)
Definition ExtractStruct (node : ASTNode) : Struct :=
  {| Struct_Name := ASTNode_Name node;
     Struct_Members :=
       map (fun member : ASTNode => ExtractVariable member)
           (ASTNode_Members node) |}.

(** [func ExtractEnum(node ASTNode) Enum]. *)
Definition ExtractEnum (node : ASTNode) : Enum :=
  {| Enum_Name := ASTNode_Name node;
     Enum_Values :=
       map (fun member : ASTNode => ASTNode_Name member)
           (List.filter
              (fun member : ASTNode =>
                 String.eqb (ASTNode_NodeType member) "EnumValue")
              (ASTNode_Members node)) |}.

(** [member.TypeName != nil && member.TypeName.NodeType == "Mapping"]. *)
Definition isMappingType (typeName : option TypeName) : bool :=
  match typeName with
  | Some t => String.eqb (TypeName_NodeType t) "Mapping"
  | None => false
  end.

(** One iteration of the member loop of [ExtractContractDefinition]. *)
Definition extractMember (contract : Contract) (member : ASTNode) : Contract :=
  let nodeType := ASTNode_NodeType member in
  if String.eqb nodeType "VariableDeclaration" then
    let variable := ExtractVariable member in
    if isMappingType (ASTNode_TypeName member)
    then setMappings contract (Contract_Mappings contract ++ [variable])
    else setVariables contract (Contract_Variables contract ++ [variable])
  else if String.eqb nodeType "FunctionDefinition" then
    let function := ExtractFunction member in
    if String.eqb (Function_Kind function) "constructor"
    then setConstructor contract (Some function)
    else setFunctions contract (Contract_Functions contract ++ [function])
  else if String.eqb nodeType "EventDefinition" then
    setEvents contract (Contract_Events contract ++ [ExtractEvent member])
  else if String.eqb nodeType "ModifierDefinition" then
    setModifiers contract
      (Contract_Modifiers contract ++ [ExtractModifier member])
  else if String.eqb nodeType "StructDefinition" then
    setStructs contract (Contract_Structs contract ++ [ExtractStruct member])
  else if String.eqb nodeType "EnumDefinition" then
    setEnums contract (Contract_Enums contract ++ [ExtractEnum member])
  else contract.

(** [func ExtractContractDefinition(node ASTNode, contract *Contract)]. *)
Definition ExtractContractDefinition (node : ASTNode) (contract : Contract)
  : Contract :=
  let contract :=
    fold_left
      (fun c baseContract =>
         setInherits c
           (Contract_Inherits c ++
              [BaseName_Name (BaseContract_BaseName baseContract)]))
      (ASTNode_BaseContracts node) contract in
  fold_left extractMember (ASTNode_Nodes node) contract.

(** One iteration of the loop of [ExtractContractInfoFromAST]. *)
Definition extractNode (contract : Contract) (node : ASTNode) : Contract :=
  let nodeType := ASTNode_NodeType node in
  if String.eqb nodeType "PragmaDirective" then
    setPragma contract (ExtractPragmaDirective node)
  else if String.eqb nodeType "ImportDirective" then
    setImports contract
      (Contract_Imports contract ++ [ExtractImportDirective node])
  else if String.eqb nodeType "ContractDefinition" then
    let contract :=
      if String.eqb (Contract_Name contract) ""
      then setName contract (ASTNode_Name node)
      else contract in
    ExtractContractDefinition node contract
  else contract.

(** [func ExtractContractInfoFromAST(ast AST, contract *Contract) error]:
    the contract as the loop leaves it, and the returned error (always
    nil). *)
Definition ExtractContractInfoFromAST (ast : AST) (contract : Contract)
  : Contract * option error :=
  (fold_left extractNode (AST_Nodes ast) contract, None).

(** ** Document loader and registry *)

(** [os.ReadFile], and [json.Unmarshal(data, &abiFile)] with the [ABIFile]
    it fills. *)
Variable ReadFile : string -> result (list Byte.byte).
Variable Unmarshal : list Byte.byte -> result ABIFile.

(** The [&Contract{Name: abiFile.ContractName}] literal. *)
Definition newContract (name : string) : Contract :=
  mkContract name "" [] [] None [] [] [] [] [] [] [].

(** [func ParseContractFile(path string) returning a Contract pointer and an error]. *)
Definition ParseContractFile (path : string) : result Contract :=
  match ReadFile path with
  | Err err => Err err
  | Ok data =>
      match Unmarshal data with
      | Err err =>
          Err (mkError ("failed to parse contract file " +:+ path +:+ ": "
                          +:+ error_Error err) (Some err))
      | Ok abiFile =>
          let contract := newContract (ABIFile_ContractName abiFile) in
          if (0 <? length (AST_Nodes (ABIFile_AST abiFile)))%nat then
            match ExtractContractInfoFromAST (ABIFile_AST abiFile) contract with
            | (_, Some err) => Err err
            | (contract, None) => Ok contract
            end
          else Err (mkError ("no AST found in file " +:+ path) None)
      end
  end.

(** One call [filepath.Walk] makes to its callback: the path, whether
    [info.IsDir()] holds, and the error Walk passes along. *)
Record Visit := mkVisit {
  Visit_path : string;
  Visit_IsDir : bool;
  Visit_err : option error
}.

(** [filepath.Walk]: the calls it makes for a root, in walk order, for as
    long as the callback returns nil. *)
Variable Walk : string -> list Visit.

(** The callback [ParseAllContracts] hands to [filepath.Walk]: the map after
    the call and the error returned. *)
Definition walkFn (contracts : gmap string Contract) (v : Visit)
  : gmap string Contract * option error :=
  let path := Visit_path v in
  match Visit_err v with
  | Some err =>
      (contracts,
       Some (mkError ("error accessing file " +:+ path +:+ ": "
                        +:+ error_Error err) (Some err)))
  | None =>
      if negb (Visit_IsDir v) && String.eqb (Ext path) ".json" then
        match ParseContractFile path with
        | Err err =>
            (contracts,
             Some (mkError ("error parsing file " +:+ path +:+ ": "
                              +:+ error_Error err) (Some err)))
        | Ok contract =>
            if nonEmpty (Contract_Name contract)
            then (<[Contract_Name contract := contract]> contracts, None)
            else (contracts, None)
        end
      else (contracts, None)
  end.

(** Walk stops at the first call that returns an error and returns it. *)
Fixpoint walkVisits (visits : list Visit) (contracts : gmap string Contract)
  : gmap string Contract * option error :=
  match visits with
  | [] => (contracts, None)
  | v :: rest =>
      match walkFn contracts v with
      | (contracts, Some err) => (contracts, Some err)
      | (contracts, None) => walkVisits rest contracts
      end
  end.

(** [func ParseAllContracts(dataFolder string) (map[string]*Contract, error)]. *)
Definition ParseAllContracts (dataFolder : string)
  : result (gmap string Contract) :=
  match walkVisits (Walk dataFolder) ∅ with
  | (_, Some err) => Err err
  | (contracts, None) => Ok contracts
  end.


(** ** Sample documents *)

(** A node with the listed fields set and every other field at its zero
    value. *)
Definition sampleNode (nodeType name kind operator : string)
    (literals : list string) (baseContracts : list BaseContract)
    (nodes : list ASTNode) (typeName : option TypeName) (value : JSON)
    (subExpression leftExpression rightExpression : option ASTNode)
  : ASTNode :=
  mkASTNode
    {| ASTNode_ID := 0; ASTNode_NodeType := nodeType; ASTNode_Name := name;
       ASTNode_AbsolutePath := ""; ASTNode_File := "";
       ASTNode_BaseContracts := baseContracts; ASTNode_Members := [];
       ASTNode_Modifiers := []; ASTNode_Parameters := None;
       ASTNode_ReturnParameters := None; ASTNode_Visibility := "";
       ASTNode_StateMutability := ""; ASTNode_Kind := kind;
       ASTNode_OverloadedDeclarations := []; ASTNode_BaseFunctions := [];
       ASTNode_Overrides := None; ASTNode_FunctionSelector := "";
       ASTNode_StorageLocation := ""; ASTNode_Constant := false;
       ASTNode_Mutability := ""; ASTNode_StateVariable := false;
       ASTNode_Value := value; ASTNode_TypeName := typeName;
       ASTNode_Literals := literals; ASTNode_Nodes := nodes;
       ASTNode_Scope := 0; ASTNode_Operator := operator;
       ASTNode_SubExpression := subExpression; ASTNode_Expression := None;
       ASTNode_Arguments := []; ASTNode_HexValue := "";
       ASTNode_IsConstant := false; ASTNode_IsLValue := false;
       ASTNode_IsPure := false; ASTNode_LeftExpression := leftExpression;
       ASTNode_RightExpression := rightExpression;
       ASTNode_Indexed := None |}.

Definition elementaryType (name : string) : TypeName :=
  mkTypeName
    (mkTypeNameOf "ElementaryTypeName" name "" None JNull None None None None).

Definition mappingType (keyType valueType : TypeName) : TypeName :=
  mkTypeName
    (mkTypeNameOf "Mapping" "" "" None JNull (Some keyType) (Some valueType)
       None None).

Definition arrayType (baseType : TypeName) (length : JSON) : TypeName :=
  mkTypeName
    (mkTypeNameOf "ArrayTypeName" "" "" (Some baseType) length None None
       None None).

Definition pragmaNode (literals : list string) : ASTNode :=
  sampleNode "PragmaDirective" "" "" "" literals [] [] None JNull
    None None None.

Definition contractNode (name : string) (bases : list string)
    (members : list ASTNode) : ASTNode :=
  sampleNode "ContractDefinition" name "" ""
    [] (map (fun b => mkBaseContract (mkBaseName b)) bases) members None JNull
    None None None.

Definition variableNode (name : string) (typeName : TypeName) (value : JSON)
  : ASTNode :=
  sampleNode "VariableDeclaration" name "" "" [] [] [] (Some typeName) value
    None None None.

Definition functionNode (name kind : string) : ASTNode :=
  sampleNode "FunctionDefinition" name kind "" [] [] [] None JNull
    None None None.

(** The expression [{"nodeType":"Literal","value":v}], as the typed node
    and as the generic value json.Unmarshal stores for it. *)
Definition literalNode (v : string) : ASTNode :=
  sampleNode "Literal" "" "" "" [] [] [] None (JString v) None None None.

Definition literalJSON (v : string) : JSON :=
  JObject [("nodeType", JString "Literal"); ("value", JString v)]
    (Some (literalNode v)).

(** [{"nodeType":"BinaryOperation","operator":op,"leftExpression":..,
    "rightExpression":..}] over two literals. *)
Definition binaryNode (op l r : string) : ASTNode :=
  sampleNode "BinaryOperation" "" "" op [] [] [] None JNull
    None (Some (literalNode l)) (Some (literalNode r)).

Definition binaryJSON (op l r : string) : JSON :=
  JObject [("nodeType", JString "BinaryOperation"); ("operator", JString op);
           ("leftExpression", literalJSON l);
           ("rightExpression", literalJSON r)]
    (Some (binaryNode op l r)).

(** [{"nodeType":"UnaryOperation","operator":op,"subExpression":..}] over a
    literal. *)
Definition unaryNode (op e : string) : ASTNode :=
  sampleNode "UnaryOperation" "" "" op [] [] [] None JNull
    (Some (literalNode e)) None None.

Definition unaryJSON (op e : string) : JSON :=
  JObject [("nodeType", JString "UnaryOperation"); ("operator", JString op);
           ("subExpression", literalJSON e)]
    (Some (unaryNode op e)).

(** ** Classifying nodes *)

(** [node.NodeType == nodeType]. *)
Definition isNodeType (nodeType : string) (node : ASTNode) : bool :=
  String.eqb (ASTNode_NodeType node) nodeType.

(** A variable declaration whose type subtree is a mapping, and one whose
    type subtree is anything else (or absent). *)
Definition isMappingDeclaration (member : ASTNode) : bool :=
  isNodeType "VariableDeclaration" member
  && isMappingType (ASTNode_TypeName member).

Definition isPlainDeclaration (member : ASTNode) : bool :=
  isNodeType "VariableDeclaration" member
  && negb (isMappingType (ASTNode_TypeName member)).

(** A function definition of kind constructor, and one of any other kind. *)
Definition isConstructorDefinition (member : ASTNode) : bool :=
  isNodeType "FunctionDefinition" member
  && String.eqb (ASTNode_Kind member) "constructor".

Definition isOtherFunctionDefinition (member : ASTNode) : bool :=
  isNodeType "FunctionDefinition" member
  && negb (String.eqb (ASTNode_Kind member) "constructor").

(** The contract-definition nodes of a document, in document order, and
    their members, in the order the extraction loops reach them. *)
Definition contractDefinitions (nodes : list ASTNode) : list ASTNode :=
  List.filter (isNodeType "ContractDefinition") nodes.

Definition contractMembers (nodes : list ASTNode) : list ASTNode :=
  flat_map (fun node : ASTNode => ASTNode_Nodes node)
    (contractDefinitions nodes).

(** The base-contract names of a contract-definition node. *)
Definition baseNames (node : ASTNode) : list string :=
  map (fun b => BaseName_Name (BaseContract_BaseName b))
    (ASTNode_BaseContracts node).

(** The first non-empty name in a list of nodes, the empty string when there
    is none. *)
Fixpoint firstName (nodes : list ASTNode) : string :=
  match nodes with
  | [] => ""
  | node :: rest =>
      if String.eqb (ASTNode_Name node) "" then firstName rest
      else ASTNode_Name node
  end.

(** A document reduced to what the reading [only the first
    contract-definition is processed] keeps: every contract-definition node
    after the first is dropped. *)
Fixpoint dropContractDefinitions (nodes : list ASTNode) : list ASTNode :=
  match nodes with
  | [] => []
  | node :: rest =>
      if isNodeType "ContractDefinition" node
      then dropContractDefinitions rest
      else node :: dropContractDefinitions rest
  end.

Fixpoint firstContractOnly (nodes : list ASTNode) : list ASTNode :=
  match nodes with
  | [] => []
  | node :: rest =>
      if isNodeType "ContractDefinition" node
      then node :: dropContractDefinitions rest
      else node :: firstContractOnly rest
  end.

(** A visit that makes [ParseAllContracts] load a document. *)
Definition isDocument (v : Visit) : bool :=
  match Visit_err v with
  | Some _ => false
  | None => negb (Visit_IsDir v) && String.eqb (Ext (Visit_path v)) ".json"
  end.

(** ** A sample file system *)

(** The sample documents hold no JSON number, so the rendering of a
    [float64] is never consulted on them. *)
Definition noNumbers : float -> string := fun _ => "".

(** Two contract definitions in one document. *)
Definition twoContracts : list ASTNode :=
  [ contractNode "A" []
      [variableNode "x" (elementaryType "uint256") JNull];
    contractNode "B" ["Base"]
      [variableNode "y" (elementaryType "address") JNull] ].

(** [uint256 constant limit = 1 + 2;] as a state variable declaration. *)
Definition limitDeclaration : ASTNode :=
  variableNode "limit" (elementaryType "uint256") (binaryJSON "+" "1" "2").

Definition balancesDeclaration : ASTNode :=
  variableNode "balances"
    (mappingType (elementaryType "address") (elementaryType "uint256")) JNull.

Definition tokenA : ABIFile :=
  mkABIFile "Token"
    (mkAST
       [ pragmaNode ["solidity"; "^"; "0.8"; ".0"];
         contractNode "Token" ["Ownable"]
           [ balancesDeclaration;
             variableNode "totalSupply" (elementaryType "uint256") JNull;
             functionNode "" "constructor";
             functionNode "transfer" "function" ] ]).

Definition tokenB : ABIFile :=
  mkABIFile "Token"
    (mkAST
       [ contractNode "TokenV2" []
           [variableNode "owner" (elementaryType "address") JNull] ]).

Definition emptyDocument : ABIFile := mkABIFile "Empty" (mkAST []).

Definition sampleReadFile (path : string) : result (list Byte.byte) :=
  if String.eqb path "data/a.json" then Ok [Byte.x01]
  else if String.eqb path "data/b.json" then Ok [Byte.x02]
  else if String.eqb path "broken/a.json" then Ok [Byte.x01]
  else if String.eqb path "broken/empty.json" then Ok [Byte.x03]
  else if String.eqb path "broken/b.json" then Ok [Byte.x02]
  else Err (mkError ("open " +:+ path +:+ ": no such file or directory") None).

Definition sampleUnmarshal (data : list Byte.byte) : result ABIFile :=
  match data with
  | [Byte.x01] => Ok tokenA
  | [Byte.x02] => Ok tokenB
  | [Byte.x03] => Ok emptyDocument
  | _ => Err (mkError "unexpected end of JSON input" None)
  end.

Definition sampleWalk (root : string) : list Visit :=
  if String.eqb root "data" then
    [ mkVisit "data" true None;
      mkVisit "data/a.json" false None;
      mkVisit "data/b.json" false None ]
  else if String.eqb root "broken" then
    [ mkVisit "broken" true None;
      mkVisit "broken/a.json" false None;
      mkVisit "broken/empty.json" false None;
      mkVisit "broken/b.json" false None ]
  else
    [ mkVisit root false
        (Some (mkError ("lstat " +:+ root +:+ ": no such file or directory")
                 None)) ].

(** A call expression: a node of kind FunctionCall with the given callee
    and arguments, every other field at its zero value. *)
Definition identifierNode (name : string) : ASTNode :=
  sampleNode "Identifier" name "" "" [] [] [] None JNull None None None.

Definition callNode (expression : option ASTNode) (arguments : list JSON)
  : ASTNode :=
  mkASTNode
    {| ASTNode_ID := 0; ASTNode_NodeType := "FunctionCall";
       ASTNode_Name := ""; ASTNode_AbsolutePath := ""; ASTNode_File := "";
       ASTNode_BaseContracts := []; ASTNode_Members := [];
       ASTNode_Modifiers := []; ASTNode_Parameters := None;
       ASTNode_ReturnParameters := None; ASTNode_Visibility := "";
       ASTNode_StateMutability := ""; ASTNode_Kind := "";
       ASTNode_OverloadedDeclarations := []; ASTNode_BaseFunctions := [];
       ASTNode_Overrides := None; ASTNode_FunctionSelector := "";
       ASTNode_StorageLocation := ""; ASTNode_Constant := false;
       ASTNode_Mutability := ""; ASTNode_StateVariable := false;
       ASTNode_Value := JNull; ASTNode_TypeName := None;
       ASTNode_Literals := []; ASTNode_Nodes := []; ASTNode_Scope := 0;
       ASTNode_Operator := ""; ASTNode_SubExpression := None;
       ASTNode_Expression := expression; ASTNode_Arguments := arguments;
       ASTNode_HexValue := ""; ASTNode_IsConstant := false;
       ASTNode_IsLValue := false; ASTNode_IsPure := false;
       ASTNode_LeftExpression := None; ASTNode_RightExpression := None;
       ASTNode_Indexed := None |}.

(** A user-defined type with the given resolved type string, declared name
    and referenced-path name. *)
Definition userDefinedType (typeString name pathName : string) : TypeName :=
  mkTypeName
    (mkTypeNameOf "UserDefinedTypeName" name "" None JNull None None
       (Some (mkTypeDescriptions "" typeString))
       (Some (mkIdentifierPath 0 pathName [] "IdentifierPath" 0 ""))).

(** ** Recognized kinds and loaded documents *)

(** The node kinds with a case in the [switch] of
    [ExtractContractInfoFromAST], and the member kinds with a case in the
    [switch] of [ExtractContractDefinition]. *)
Definition isRecognizedNode (node : ASTNode) : bool :=
  isNodeType "PragmaDirective" node
  || isNodeType "ImportDirective" node
  || isNodeType "ContractDefinition" node.

Definition isRecognizedMember (member : ASTNode) : bool :=
  isNodeType "VariableDeclaration" member
  || isNodeType "FunctionDefinition" member
  || isNodeType "EventDefinition" member
  || isNodeType "ModifierDefinition" member
  || isNodeType "StructDefinition" member
  || isNodeType "EnumDefinition" member.

(** The Contract a visit makes [ParseAllContracts] load, if any. *)
Definition loadedContract (v : Visit) : option Contract :=
  if isDocument v then
    match ParseContractFile (Visit_path v) with
    | Ok contract => Some contract
    | Err _ => None
    end
  else None.

Definition loadedContracts (visits : list Visit) : list Contract :=
  omap loadedContract visits.

(** [contract.Name == name]. *)
Definition hasName (name : string) (contract : Contract) : bool :=
  String.eqb (Contract_Name contract) name.

(** * Properties *)

(** ** Loops that collect into a slice or overwrite a slot *)

Section Loops.
Context {S A B : Type} (step : S -> A -> S).

(** A loop whose every iteration appends to one slice of the state. *)
Lemma fold_left_appends (proj : S -> list B) (g : A -> list B) :
  (forall s a, proj (step s a) = proj s ++ g a) ->
  forall l s, proj (fold_left step l s) = proj s ++ flat_map g l.
Proof.
  intros Hstep l. induction l as [|a l IH]; intros s; simpl.
  - by rewrite app_nil_r.
  - by rewrite IH, Hstep, <- app_assoc.
Qed.

(** A loop whose iterations either overwrite one slot or leave it. *)
Lemma fold_left_overwrites (proj : S -> B) (g : A -> option B) :
  (forall s a, proj (step s a) = default (proj s) (g a)) ->
  forall l s, proj (fold_left step l s) = default (proj s) (last (omap g l)).
Proof.
  intros Hstep l. induction l as [|a l IH]; intros s; csimpl; [done|].
  rewrite IH, Hstep. destruct (g a) as [b|]; csimpl; [|done].
  rewrite last_cons. by destruct (last (omap g l)).
Qed.

(** A loop that leaves a projection of the state alone. *)
Lemma fold_left_preserves {C : Type} (proj : S -> C) :
  (forall s a, proj (step s a) = proj s) ->
  forall l s, proj (fold_left step l s) = proj s.
Proof.
  intros Hstep l. induction l as [|a l IH]; intros s; simpl; [done|].
  by rewrite IH, Hstep.
Qed.
End Loops.

Lemma flat_map_select {A B : Type} (p : A -> bool) (f : A -> B) (l : list A) :
  flat_map (fun a => if p a then [f a] else []) l = map f (List.filter p l).
Proof.
  induction l as [|a l IH]; simpl; [done|].
  destruct (p a); simpl; by rewrite IH.
Qed.

Lemma flat_map_guard {A B : Type} (q : A -> bool) (g : A -> list B)
    (l : list A) :
  flat_map (fun a => if q a then g a else []) l = flat_map g (List.filter q l).
Proof.
  induction l as [|a l IH]; simpl; [done|].
  destruct (q a); simpl; by rewrite IH.
Qed.

Lemma filter_flat_map {A B : Type} (p : B -> bool) (g : A -> list B)
    (l : list A) :
  List.filter p (flat_map g l) = flat_map (fun a => List.filter p (g a)) l.
Proof.
  induction l as [|a l IH]; simpl; [done|].
  by rewrite List.filter_app, IH.
Qed.

Lemma map_flat_map {A B C : Type} (f : B -> C) (g : A -> list B)
    (l : list A) :
  map f (flat_map g l) = flat_map (fun a => map f (g a)) l.
Proof.
  induction l as [|a l IH]; simpl; [done|].
  by rewrite map_app, IH.
Qed.

Lemma omap_select {A B : Type} (p : A -> bool) (f : A -> B) (l : list A) :
  omap (fun a => if p a then Some (f a) else None) l = map f (List.filter p l).
Proof.
  induction l as [|a l IH]; csimpl; [done|].
  destruct (p a); csimpl; by rewrite IH.
Qed.

Lemma last_map {A B : Type} (f : A -> B) (l : list A) :
  last (map f l) = f <$> last l.
Proof.
  induction l as [|a [|b l] IH]; simpl in *; try done.
Qed.

(** The last write of a loop nested in a guarded outer loop is the last
    write over the concatenated inner lists. *)
Lemma last_omap_nested {A B C : Type} (q : A -> bool) (inner : A -> list B)
    (g : B -> option C) (l : list A) :
  last (omap (fun a => if q a then last (omap g (inner a)) else None) l)
  = last (omap g (flat_map inner (List.filter q l))).
Proof.
  induction l as [|a l IH]; csimpl; [done|].
  destruct (q a); csimpl; [|done].
  rewrite omap_app, last_app, <- IH.
  destruct (last (omap g (inner a))) as [c|]; csimpl.
  - rewrite last_cons. by destruct (last (omap _ l)).
  - by destruct (last (omap _ l)).
Qed.

(** ** The member loop and the node loop *)

(** Case analysis along a [switch] on a node type. *)
Ltac switch_node_type nt :=
  repeat match goal with
  | |- context [String.eqb nt ?lit] =>
      destruct (String.eqb_spec nt lit) as [->|?]; simpl
  end.

Ltac split_ifs :=
  repeat match goal with
  | |- context [if ?b then _ else _] => destruct b; simpl
  end.

Ltac member_step c m :=
  destruct c;
  unfold extractMember, isPlainDeclaration,
    isMappingDeclaration, isConstructorDefinition, isOtherFunctionDefinition,
    isNodeType;
  generalize (ASTNode_NodeType m); intros nt;
  switch_node_type nt; split_ifs; rewrite ?app_nil_r; reflexivity.

Lemma extractMember_Variables c m :
  Contract_Variables (extractMember c m)
  = Contract_Variables c
    ++ (if isPlainDeclaration m then [ExtractVariable m] else []).
Proof. member_step c m. Qed.

Lemma extractMember_Mappings c m :
  Contract_Mappings (extractMember c m)
  = Contract_Mappings c
    ++ (if isMappingDeclaration m then [ExtractVariable m] else []).
Proof. member_step c m. Qed.

Lemma extractMember_Functions c m :
  Contract_Functions (extractMember c m)
  = Contract_Functions c
    ++ (if isOtherFunctionDefinition m then [ExtractFunction m] else []).
Proof. member_step c m. Qed.

Lemma extractMember_Events c m :
  Contract_Events (extractMember c m)
  = Contract_Events c
    ++ (if isNodeType "EventDefinition" m then [ExtractEvent m] else []).
Proof. member_step c m. Qed.

Lemma extractMember_Modifiers c m :
  Contract_Modifiers (extractMember c m)
  = Contract_Modifiers c
    ++ (if isNodeType "ModifierDefinition" m then [ExtractModifier m] else []).
Proof. member_step c m. Qed.

Lemma extractMember_Structs c m :
  Contract_Structs (extractMember c m)
  = Contract_Structs c
    ++ (if isNodeType "StructDefinition" m then [ExtractStruct m] else []).
Proof. member_step c m. Qed.

Lemma extractMember_Enums c m :
  Contract_Enums (extractMember c m)
  = Contract_Enums c
    ++ (if isNodeType "EnumDefinition" m then [ExtractEnum m] else []).
Proof. member_step c m. Qed.

Lemma extractMember_Constructor c m :
  Contract_Constructor (extractMember c m)
  = default (Contract_Constructor c)
      (if isConstructorDefinition m then Some (Some (ExtractFunction m))
       else None).
Proof. member_step c m. Qed.

Lemma extractMember_Name c m :
  Contract_Name (extractMember c m) = Contract_Name c.
Proof. member_step c m. Qed.

Lemma extractMember_Pragma c m :
  Contract_Pragma (extractMember c m) = Contract_Pragma c.
Proof. member_step c m. Qed.

Lemma extractMember_Inherits c m :
  Contract_Inherits (extractMember c m) = Contract_Inherits c.
Proof. member_step c m. Qed.

(** The base-contract loop only touches [Inherits]. *)
Lemma inherits_loop_spec (bases : list BaseContract) c :
  fold_left
    (fun c b =>
       setInherits c
         (Contract_Inherits c ++ [BaseName_Name (BaseContract_BaseName b)]))
    bases c
  = setInherits c
      (Contract_Inherits c
         ++ map (fun b => BaseName_Name (BaseContract_BaseName b)) bases).
Proof.
  revert c. induction bases as [|b bases IH]; intros c; simpl.
  - destruct c; simpl. by rewrite app_nil_r.
  - rewrite IH. destruct c; simpl. by rewrite <- app_assoc.
Qed.

Lemma ExtractContractDefinition_eq node c :
  ExtractContractDefinition node c
  = fold_left extractMember (ASTNode_Nodes node)
      (setInherits c (Contract_Inherits c ++ baseNames node)).
Proof.
  unfold ExtractContractDefinition.
  by rewrite inherits_loop_spec.
Qed.

Lemma ExtractContractDefinition_Name node c :
  Contract_Name (ExtractContractDefinition node c) = Contract_Name c.
Proof.
  rewrite ExtractContractDefinition_eq.
  rewrite (fold_left_preserves _ Contract_Name extractMember_Name).
  by destruct c.
Qed.

Lemma ExtractContractDefinition_Pragma node c :
  Contract_Pragma (ExtractContractDefinition node c) = Contract_Pragma c.
Proof.
  rewrite ExtractContractDefinition_eq.
  rewrite (fold_left_preserves _ Contract_Pragma extractMember_Pragma).
  by destruct c.
Qed.

Lemma ExtractContractDefinition_Inherits node c :
  Contract_Inherits (ExtractContractDefinition node c)
  = Contract_Inherits c ++ baseNames node.
Proof.
  rewrite ExtractContractDefinition_eq.
  rewrite (fold_left_preserves _ Contract_Inherits extractMember_Inherits).
  by destruct c.
Qed.

Lemma ExtractContractDefinition_Constructor node c :
  Contract_Constructor (ExtractContractDefinition node c)
  = default (Contract_Constructor c)
      (last (omap (fun m => if isConstructorDefinition m
                            then Some (Some (ExtractFunction m)) else None)
               (ASTNode_Nodes node))).
Proof.
  rewrite ExtractContractDefinition_eq.
  rewrite (fold_left_overwrites _ Contract_Constructor _
             extractMember_Constructor).
  by destruct c.
Qed.

(** A slice of the contract that only the member loop appends to. *)
Section Collection.
Context {B : Type} (P : Contract -> list B) (p : ASTNode -> bool)
  (f : ASTNode -> B).
Hypothesis P_setName : forall c v, P (setName c v) = P c.
Hypothesis P_setPragma : forall c v, P (setPragma c v) = P c.
Hypothesis P_setImports : forall c v, P (setImports c v) = P c.
Hypothesis P_setInherits : forall c v, P (setInherits c v) = P c.
Hypothesis P_member :
  forall c m, P (extractMember c m) = P c ++ (if p m then [f m] else []).

Lemma collected_from_definition node c :
  P (ExtractContractDefinition node c)
  = P c ++ map f (List.filter p (ASTNode_Nodes node)).
Proof using P_setInherits P_member.
  rewrite ExtractContractDefinition_eq.
  rewrite (fold_left_appends _ P _ P_member), flat_map_select.
  by rewrite P_setInherits.
Qed.

Lemma collected_from_node c node :
  P (extractNode c node)
  = P c ++ (if isNodeType "ContractDefinition" node
            then map f (List.filter p (ASTNode_Nodes node)) else []).
Proof using P_setName P_setPragma P_setImports P_setInherits P_member.
  unfold extractNode, isNodeType.
  generalize (ASTNode_NodeType node); intros nt.
  switch_node_type nt; rewrite ?app_nil_r; try done.
  rewrite collected_from_definition. destruct (String.eqb _ _); by rewrite ?P_setName.
Qed.

Lemma collected_from_document nodes c :
  P (fold_left extractNode nodes c)
  = P c ++ map f (List.filter p (contractMembers nodes)).
Proof using P_setName P_setPragma P_setImports P_setInherits P_member.
  rewrite (fold_left_appends _ P _ collected_from_node).
  unfold contractMembers, contractDefinitions.
  by rewrite flat_map_guard, filter_flat_map, map_flat_map.
Qed.
End Collection.

(** What the node loop does to the remaining fields. *)
Ltac node_step c node :=
  unfold extractNode, isNodeType;
  generalize (ASTNode_NodeType node); intros nt;
  switch_node_type nt; rewrite ?app_nil_r; try (by destruct c).

Lemma extractNode_Inherits c node :
  Contract_Inherits (extractNode c node)
  = Contract_Inherits c
    ++ (if isNodeType "ContractDefinition" node then baseNames node else []).
Proof.
  node_step c node.
  rewrite ExtractContractDefinition_Inherits.
  destruct (String.eqb _ _); by destruct c.
Qed.

Lemma extractNode_Constructor c node :
  Contract_Constructor (extractNode c node)
  = default (Contract_Constructor c)
      (if isNodeType "ContractDefinition" node
       then last (omap (fun m => if isConstructorDefinition m
                                 then Some (Some (ExtractFunction m))
                                 else None)
                    (ASTNode_Nodes node))
       else None).
Proof.
  node_step c node.
  rewrite ExtractContractDefinition_Constructor.
  destruct (String.eqb _ _); by destruct c.
Qed.

Lemma extractNode_Pragma c node :
  Contract_Pragma (extractNode c node)
  = default (Contract_Pragma c)
      (if isNodeType "PragmaDirective" node
       then Some (ExtractPragmaDirective node) else None).
Proof.
  node_step c node.
  rewrite ExtractContractDefinition_Pragma.
  destruct (String.eqb _ _); by destruct c.
Qed.

Lemma extractNode_Name c node :
  Contract_Name (extractNode c node)
  = if isNodeType "ContractDefinition" node
       && String.eqb (Contract_Name c) ""
    then ASTNode_Name node else Contract_Name c.
Proof.
  node_step c node.
  rewrite ExtractContractDefinition_Name.
  destruct (String.eqb _ _); by destruct c.
Qed.

(** ** What a whole document leaves in each field *)

Lemma document_Variables nodes c :
  Contract_Variables (fold_left extractNode nodes c)
  = Contract_Variables c
    ++ map ExtractVariable
         (List.filter isPlainDeclaration (contractMembers nodes)).
Proof.
  apply collected_from_document;
    try (by intros []); apply extractMember_Variables.
Qed.

Lemma document_Mappings nodes c :
  Contract_Mappings (fold_left extractNode nodes c)
  = Contract_Mappings c
    ++ map ExtractVariable
         (List.filter isMappingDeclaration (contractMembers nodes)).
Proof.
  apply collected_from_document;
    try (by intros []); apply extractMember_Mappings.
Qed.

Lemma document_Functions nodes c :
  Contract_Functions (fold_left extractNode nodes c)
  = Contract_Functions c
    ++ map ExtractFunction
         (List.filter isOtherFunctionDefinition (contractMembers nodes)).
Proof.
  apply collected_from_document;
    try (by intros []); apply extractMember_Functions.
Qed.

Lemma document_Events nodes c :
  Contract_Events (fold_left extractNode nodes c)
  = Contract_Events c
    ++ map ExtractEvent
         (List.filter (isNodeType "EventDefinition") (contractMembers nodes)).
Proof.
  apply collected_from_document;
    try (by intros []); apply extractMember_Events.
Qed.

Lemma document_Modifiers nodes c :
  Contract_Modifiers (fold_left extractNode nodes c)
  = Contract_Modifiers c
    ++ map ExtractModifier
         (List.filter (isNodeType "ModifierDefinition")
            (contractMembers nodes)).
Proof.
  apply collected_from_document;
    try (by intros []); apply extractMember_Modifiers.
Qed.

Lemma document_Structs nodes c :
  Contract_Structs (fold_left extractNode nodes c)
  = Contract_Structs c
    ++ map ExtractStruct
         (List.filter (isNodeType "StructDefinition") (contractMembers nodes)).
Proof.
  apply collected_from_document;
    try (by intros []); apply extractMember_Structs.
Qed.

Lemma document_Enums nodes c :
  Contract_Enums (fold_left extractNode nodes c)
  = Contract_Enums c
    ++ map ExtractEnum
         (List.filter (isNodeType "EnumDefinition") (contractMembers nodes)).
Proof.
  apply collected_from_document;
    try (by intros []); apply extractMember_Enums.
Qed.

Lemma document_Inherits nodes c :
  Contract_Inherits (fold_left extractNode nodes c)
  = Contract_Inherits c ++ flat_map baseNames (contractDefinitions nodes).
Proof.
  rewrite (fold_left_appends _ Contract_Inherits _ extractNode_Inherits).
  by rewrite flat_map_guard.
Qed.

Lemma document_Constructor nodes c :
  Contract_Constructor (fold_left extractNode nodes c)
  = match last (List.filter isConstructorDefinition (contractMembers nodes))
    with
    | Some member => Some (ExtractFunction member)
    | None => Contract_Constructor c
    end.
Proof.
  rewrite (fold_left_overwrites _ Contract_Constructor _
             extractNode_Constructor).
  rewrite last_omap_nested, omap_select, last_map.
  fold (contractDefinitions nodes). fold (contractMembers nodes).
  by destruct (last _).
Qed.

Lemma document_Pragma nodes c :
  Contract_Pragma (fold_left extractNode nodes c)
  = match last (List.filter (isNodeType "PragmaDirective") nodes) with
    | Some node => ExtractPragmaDirective node
    | None => Contract_Pragma c
    end.
Proof.
  rewrite (fold_left_overwrites _ Contract_Pragma _ extractNode_Pragma).
  rewrite omap_select, last_map. by destruct (last _).
Qed.

Lemma document_Name_kept nodes c :
  Contract_Name c <> "" ->
  Contract_Name (fold_left extractNode nodes c) = Contract_Name c.
Proof.
  revert c. induction nodes as [|node nodes IH]; intros c Hc; simpl; [done|].
  assert (Contract_Name (extractNode c node) = Contract_Name c) as Hstep.
  { rewrite extractNode_Name.
    destruct (String.eqb_spec (Contract_Name c) ""); [done|].
    by rewrite andb_false_r. }
  rewrite IH; rewrite Hstep; done.
Qed.

Lemma document_Name_adopted nodes c :
  Contract_Name c = "" ->
  Contract_Name (fold_left extractNode nodes c)
  = firstName (contractDefinitions nodes).
Proof.
  revert c. induction nodes as [|node nodes IH]; intros c Hc; simpl; [done|].
  pose proof (extractNode_Name c node) as Hstep. rewrite Hc in Hstep.
  unfold contractDefinitions in *; simpl.
  destruct (isNodeType "ContractDefinition" node); simpl in *.
  - destruct (String.eqb_spec (ASTNode_Name node) "") as [Hn|Hn].
    + apply IH. by rewrite Hstep.
    + rewrite document_Name_kept; rewrite Hstep; done.
  - apply IH. by rewrite Hstep.
Qed.

(** ** Extraction engine *)

(** C1 (as amended): every contract-definition node of a document is
    processed, not only the first.  The Contract keeps the incoming name
    when it is non-empty and otherwise takes the first non-empty name among
    the contract-definition nodes; the base-contract names and the members
    of all contract-definition nodes, in document order, are accumulated
    into the one Contract. *)
Theorem every_contract_definition_processed (nodes : list ASTNode)
    (c0 : Contract) :
  let c := (ExtractContractInfoFromAST (mkAST nodes) c0).1 in
  let members := contractMembers nodes in
  Contract_Name c
  = (if String.eqb (Contract_Name c0) ""
     then firstName (contractDefinitions nodes) else Contract_Name c0)
  /\ Contract_Inherits c
     = Contract_Inherits c0 ++ flat_map baseNames (contractDefinitions nodes)
  /\ Contract_Variables c
     = Contract_Variables c0
       ++ map ExtractVariable (List.filter isPlainDeclaration members)
  /\ Contract_Mappings c
     = Contract_Mappings c0
       ++ map ExtractVariable (List.filter isMappingDeclaration members)
  /\ Contract_Functions c
     = Contract_Functions c0
       ++ map ExtractFunction (List.filter isOtherFunctionDefinition members)
  /\ Contract_Constructor c
     = match last (List.filter isConstructorDefinition members) with
       | Some member => Some (ExtractFunction member)
       | None => Contract_Constructor c0
       end
  /\ Contract_Events c
     = Contract_Events c0
       ++ map ExtractEvent
            (List.filter (isNodeType "EventDefinition") members)
  /\ Contract_Modifiers c
     = Contract_Modifiers c0
       ++ map ExtractModifier
            (List.filter (isNodeType "ModifierDefinition") members)
  /\ Contract_Structs c
     = Contract_Structs c0
       ++ map ExtractStruct
            (List.filter (isNodeType "StructDefinition") members)
  /\ Contract_Enums c
     = Contract_Enums c0
       ++ map ExtractEnum (List.filter (isNodeType "EnumDefinition") members).
Proof.
  simpl. repeat split.
  - destruct (String.eqb_spec (Contract_Name c0) "") as [H|H].
    + by apply document_Name_adopted.
    + by apply document_Name_kept.
  - apply document_Inherits.
  - apply document_Variables.
  - apply document_Mappings.
  - apply document_Functions.
  - apply document_Constructor.
  - apply document_Events.
  - apply document_Modifiers.
  - apply document_Structs.
  - apply document_Enums.
Qed.

Lemma filter_decide {A : Type} (p : A -> bool) (P : A -> Prop)
    `{!forall x, Decision (P x)} (l : list A) :
  (forall x, p x = true <-> P x) -> List.filter p l = filter P l.
Proof.
  intros Hp. induction l as [|a l IH]; [done|].
  rewrite filter_cons. simpl. rewrite IH.
  destruct (p a) eqn:Ha, (decide (P a)) as [HP|HP]; try done.
  - by apply Hp in Ha.
  - apply Hp in HP. congruence.
Qed.

Lemma mapping_kind_test (typeName : option TypeName) :
  isMappingType typeName = true
  <-> (fun t : TypeName => TypeName_NodeType t) <$> typeName = Some "Mapping".
Proof.
  destruct typeName as [t|]; simpl; [|done].
  rewrite String.eqb_eq. split; [by intros -> | by intros [= ->]].
Qed.

(** C3: a variable-declaration member whose type subtree is present and
    has the node kind Mapping is appended to Mappings and leaves Variables
    as it was; a variable-declaration member whose type subtree is absent
    or of any other kind is appended to Variables and leaves Mappings as it
    was.  So each declaration lands in one of the two collections and never
    in both.  Over a whole document, Mappings gains the variable
    declarations with a type subtree of kind Mapping and Variables gains
    all other variable declarations, both in document order. *)
Theorem variable_declaration_placement :
  (forall (c : Contract) (member : ASTNode),
     ASTNode_NodeType member = "VariableDeclaration" ->
     let c' := extractMember c member in
     let variable := ExtractVariable member in
     ((exists t : TypeName,
         ASTNode_TypeName member = Some t
         /\ TypeName_NodeType t = "Mapping")
      /\ Contract_Mappings c' = Contract_Mappings c ++ [variable]
      /\ Contract_Variables c' = Contract_Variables c)
     \/ (~ (exists t : TypeName,
              ASTNode_TypeName member = Some t
              /\ TypeName_NodeType t = "Mapping")
         /\ Contract_Variables c' = Contract_Variables c ++ [variable]
         /\ Contract_Mappings c' = Contract_Mappings c))
  /\ (forall (nodes : list ASTNode) (c0 : Contract),
        let c := (ExtractContractInfoFromAST (mkAST nodes) c0).1 in
        let typeKind (member : ASTNode) : option string :=
          (fun t : TypeName => TypeName_NodeType t)
            <$> ASTNode_TypeName member in
        Contract_Mappings c
        = Contract_Mappings c0
          ++ map ExtractVariable
               (filter
                  (fun member : ASTNode =>
                     ASTNode_NodeType member = "VariableDeclaration"
                     /\ typeKind member = Some "Mapping")
                  (contractMembers nodes))
        /\ Contract_Variables c
           = Contract_Variables c0
             ++ map ExtractVariable
                  (filter
                     (fun member : ASTNode =>
                        ASTNode_NodeType member = "VariableDeclaration"
                        /\ typeKind member <> Some "Mapping")
                     (contractMembers nodes))).
Proof.
  split.
  - intros c member Hkind c' variable. subst c' variable.
    rewrite extractMember_Mappings, extractMember_Variables.
    unfold isMappingDeclaration, isPlainDeclaration, isNodeType.
    rewrite Hkind. simpl.
    destruct (ASTNode_TypeName member) as [t|] eqn:Htype; simpl.
    + destruct (String.eqb_spec (TypeName_NodeType t) "Mapping") as [Ht|Ht];
        simpl; rewrite app_nil_r.
      * left. split; [by exists t | done].
      * right. split; [|done]. intros (t' & [= <-] & Ht'). done.
    + rewrite app_nil_r. right. split; [|done]. by intros (t' & [=] & _).
  - intros nodes c0. simpl. split.
    + rewrite document_Mappings. do 2 f_equal. apply filter_decide.
      intros m. unfold isMappingDeclaration, isNodeType.
      by rewrite andb_true_iff, String.eqb_eq, mapping_kind_test.
    + rewrite document_Variables. do 2 f_equal. apply filter_decide.
      intros m. unfold isPlainDeclaration, isNodeType.
      rewrite andb_true_iff, String.eqb_eq, negb_true_iff.
      rewrite <- not_true_iff_false, mapping_kind_test. done.
Qed.

Lemma other_function_kind (member : ASTNode) :
  isOtherFunctionDefinition member = true ->
  Function_Kind (ExtractFunction member) <> "constructor".
Proof.
  unfold isOtherFunctionDefinition. intros [_ H]%andb_true_iff. simpl.
  destruct (String.eqb_spec (ASTNode_Kind member) "constructor"); done.
Qed.

(** C4: in a Contract returned by the loader no element of Functions has
    kind constructor; a constructor function-definition is written to the
    Constructor slot and leaves Functions alone; and the slot of the
    returned Contract holds the last constructor definition among the
    members of the document's contract definitions (none when there is no
    such member). *)
Theorem constructor_slot :
  (forall (c : Contract) (member : ASTNode),
     isConstructorDefinition member = true ->
     Contract_Constructor (extractMember c member)
     = Some (ExtractFunction member)
     /\ Contract_Functions (extractMember c member) = Contract_Functions c)
  /\ (forall (path : string) (data : list Byte.byte) (abiFile : ABIFile)
             (contract : Contract),
        ReadFile path = Ok data ->
        Unmarshal data = Ok abiFile ->
        ParseContractFile path = Ok contract ->
        Forall (fun f => Function_Kind f <> "constructor")
          (Contract_Functions contract)
        /\ Contract_Constructor contract
           = ExtractFunction
               <$> last (List.filter isConstructorDefinition
                           (contractMembers (AST_Nodes (ABIFile_AST abiFile))))).
Proof.
  split.
  - intros c member Hctor.
    rewrite extractMember_Constructor, extractMember_Functions, Hctor.
    split; [done|].
    unfold isConstructorDefinition, isOtherFunctionDefinition in *.
    apply andb_true_iff in Hctor as [-> ->]. simpl. by rewrite app_nil_r.
  - intros path data abiFile contract Hread Hdecode.
    unfold ParseContractFile. rewrite Hread, Hdecode.
    destruct (0 <? _)%nat; [|done].
    unfold ExtractContractInfoFromAST. intros [= <-]. split.
    + rewrite document_Functions. simpl.
      apply Forall_forall. intros f [member [<- Hm]]%list_elem_of_In%in_map_iff.
      apply List.filter_In in Hm as [_ Hm]. by apply other_function_kind.
    + rewrite document_Constructor. by destruct (last _).
Qed.

(** C9: a pragma-directive node sets Pragma to the string "pragma ", its
    literal tokens joined without separator, and ";" (any other node leaves
    Pragma as it is), so that after a whole document Pragma comes from its
    last pragma-directive node (the incoming value when there is none); the
    tokens solidity, ^, 0.8, .0 give "pragma solidity^0.8.0;". *)
Theorem pragma_last_directive_wins :
  (forall (c : Contract) (node : ASTNode),
     Contract_Pragma (extractNode c node)
     = if isNodeType "PragmaDirective" node
       then "pragma " +:+ Join (ASTNode_Literals node) "" +:+ ";"
       else Contract_Pragma c)
  /\ (forall (nodes : list ASTNode) (c0 : Contract),
     Contract_Pragma (ExtractContractInfoFromAST (mkAST nodes) c0).1
     = match last (List.filter (isNodeType "PragmaDirective") nodes) with
       | Some node => "pragma " +:+ Join (ASTNode_Literals node) "" +:+ ";"
       | None => Contract_Pragma c0
       end)
  /\ ExtractPragmaDirective (pragmaNode ["solidity"; "^"; "0.8"; ".0"])
     = "pragma solidity^0.8.0;"
  /\ (let c := (ExtractContractInfoFromAST
                  (mkAST [pragmaNode ["solidity"; "^"; "0.8"; ".0"];
                          contractNode "Foo" [] []])
                  (newContract "")).1 in
      Contract_Name c = "Foo"
      /\ Contract_Pragma c = "pragma solidity^0.8.0;"
      /\ Contract_Inherits c = []).
Proof.
  split; [|split; [|split]].
  - intros c node. rewrite extractNode_Pragma.
    by destruct (isNodeType "PragmaDirective" node).
  - intros nodes c0. apply document_Pragma.
  - reflexivity.
  - by vm_compute.
Qed.

(** C10: the Contract a document yields is named after the document-level
    contract-name field whenever that field is non-empty, whatever the
    names of its contract-definition nodes; the name of a contract-definition
    node (the first non-empty one) is taken only when the field is empty. *)
Theorem document_name_takes_precedence (path : string)
    (data : list Byte.byte) (abiFile : ABIFile) (contract : Contract) :
  ReadFile path = Ok data ->
  Unmarshal data = Ok abiFile ->
  ParseContractFile path = Ok contract ->
  (ABIFile_ContractName abiFile <> "" ->
   Contract_Name contract = ABIFile_ContractName abiFile)
  /\ (ABIFile_ContractName abiFile = "" ->
      Contract_Name contract
      = firstName (contractDefinitions (AST_Nodes (ABIFile_AST abiFile)))).
Proof.
  intros Hread Hdecode. unfold ParseContractFile. rewrite Hread, Hdecode.
  destruct (0 <? _)%nat; [|done].
  unfold ExtractContractInfoFromAST. intros [= <-]. split; intros Hname.
  - by rewrite document_Name_kept.
  - by rewrite document_Name_adopted.
Qed.

(** ** Document loader *)

(** C5: once the file has been read and decoded, a document without
    top-level nodes makes the loader return the error "no AST found in file
    PATH" (and no Contract), and a document with at least one top-level node
    makes it return a Contract. *)
Theorem missing_ast_error (path : string) (data : list Byte.byte)
    (abiFile : ABIFile) :
  ReadFile path = Ok data ->
  Unmarshal data = Ok abiFile ->
  (AST_Nodes (ABIFile_AST abiFile) = [] ->
   ParseContractFile path
   = Err (mkError ("no AST found in file " +:+ path) None))
  /\ (AST_Nodes (ABIFile_AST abiFile) <> [] ->
      exists contract, ParseContractFile path = Ok contract).
Proof.
  intros Hread Hdecode. unfold ParseContractFile. rewrite Hread, Hdecode.
  split; intros Hnodes.
  - by rewrite Hnodes.
  - destruct (AST_Nodes (ABIFile_AST abiFile)) as [|node nodes] eqn:E; [done|].
    simpl. eauto.
Qed.

(** ** Type renderer and value reconstructor *)

Lemma extractTypeName_Some (typeName : TypeName) :
  extractTypeName (Some typeName)
  = (let nodeType := TypeName_NodeType typeName in
     if String.eqb nodeType "ElementaryTypeName" then
       TypeName_Name typeName
     else if String.eqb nodeType "UserDefinedTypeName" then
       if match TypeName_TypeDescriptions typeName with
          | Some td => nonEmpty (TypeDescriptions_TypeString td)
          | None => false
          end
       then match TypeName_TypeDescriptions typeName with
            | Some td => TypeDescriptions_TypeString td
            | None => ""
            end
       else if nonEmpty (TypeName_Name typeName) then
         TypeName_Name typeName
       else match TypeName_PathNode typeName with
            | Some pathNode =>
                if nonEmpty (IdentifierPath_Name pathNode)
                then IdentifierPath_Name pathNode
                else ""
            | None => ""
            end
     else if String.eqb nodeType "Mapping" then
       "mapping(" +:+ extractTypeName (TypeName_KeyType typeName) +:+ " => "
         +:+ extractTypeName (TypeName_ValueType typeName) +:+ ")"
     else if String.eqb nodeType "ArrayTypeName" then
       match TypeName_Length typeName with
       | JNull => extractTypeName (TypeName_BaseType typeName) +:+ "[]"
       | length =>
           extractTypeName (TypeName_BaseType typeName) +:+ "["
             +:+ formatV length +:+ "]"
       end
     else "").
Proof. destruct typeName as [[]]. reflexivity. Qed.

(** The shapes the type renderer produces: the empty string for a nil
    reference and for a node whose kind is none of the four it knows;
    "mapping(K => V)" from the renderings K and V of the key and value
    subtrees; "T[]" for an array without length, from the rendering T of
    its base type; and, for an array with a length, T followed by the %v
    text of the decoded length value between brackets. *)
Lemma type_renderer_shapes :
  extractTypeName None = ""
  /\ (forall t : TypeName,
        TypeName_NodeType t <> "ElementaryTypeName" ->
        TypeName_NodeType t <> "UserDefinedTypeName" ->
        TypeName_NodeType t <> "Mapping" ->
        TypeName_NodeType t <> "ArrayTypeName" ->
        extractTypeName (Some t) = "")
  /\ (forall t : TypeName,
        TypeName_NodeType t = "Mapping" ->
        extractTypeName (Some t)
        = "mapping(" +:+ extractTypeName (TypeName_KeyType t) +:+ " => "
            +:+ extractTypeName (TypeName_ValueType t) +:+ ")")
  /\ (forall t : TypeName,
        TypeName_NodeType t = "ArrayTypeName" ->
        TypeName_Length t = JNull ->
        extractTypeName (Some t)
        = extractTypeName (TypeName_BaseType t) +:+ "[]")
  /\ (forall t : TypeName,
        TypeName_NodeType t = "ArrayTypeName" ->
        TypeName_Length t <> JNull ->
        extractTypeName (Some t)
        = extractTypeName (TypeName_BaseType t) +:+ "["
            +:+ formatV (TypeName_Length t) +:+ "]").
Proof.
  repeat split.
  - intros t H1 H2 H3 H4. rewrite extractTypeName_Some. simpl.
    by rewrite !(proj2 (String.eqb_neq _ _)).
  - intros t H. rewrite extractTypeName_Some, H. reflexivity.
  - intros t H Hlen. rewrite extractTypeName_Some, H, Hlen. reflexivity.
  - intros t H Hlen. rewrite extractTypeName_Some, H. simpl.
    by destruct (TypeName_Length t).
Qed.

Lemma extractValue_NodePtr (p : option ASTNode) :
  extractValue (NodePtr p) = "".
Proof. reflexivity. Qed.

(** What the unary and the binary case of [extractValueFromNode] return:
    the operand pointers reach [extractValue] as [*ASTNode] values, which its
    type switch sends to the default branch, so no operand is rendered. *)
Lemma unary_operand_dropped (node : ASTNode) :
  ASTNode_NodeType node = "UnaryOperation" ->
  extractValueFromNode (Some node) = ASTNode_Operator node +:+ "".
Proof.
  intros H. unfold extractValueFromNode, extractValueFromNode_.
  rewrite H. reflexivity.
Qed.

Lemma binary_operands_dropped (node : ASTNode) :
  ASTNode_NodeType node = "BinaryOperation" ->
  extractValueFromNode (Some node)
  = "(" +:+ "" +:+ " " +:+ ASTNode_Operator node +:+ " " +:+ "" +:+ ")".
Proof.
  intros H. unfold extractValueFromNode, extractValueFromNode_.
  rewrite H. reflexivity.
Qed.

Lemma extractValue_object (m : list (string * JSON)) (node : ASTNode) :
  extractValue (FromJSON (JObject m (Some node)))
  = extractValueFromNode (Some node).
Proof. reflexivity. Qed.

(** ** Registry *)

Lemma walkVisits_app (pre post : list Visit) (contracts : gmap string Contract) :
  walkVisits (pre ++ post) contracts
  = match walkVisits pre contracts with
    | (contracts', Some err) => (contracts', Some err)
    | (contracts', None) => walkVisits post contracts'
    end.
Proof.
  revert contracts. induction pre as [|v pre IH]; intros contracts; simpl.
  - done.
  - destruct (walkFn contracts v) as [contracts' [err|]]; [done|]. apply IH.
Qed.

(** The callback on a visit that loads a document. *)
Lemma walkFn_document (contracts : gmap string Contract) (v : Visit) :
  isDocument v = true ->
  walkFn contracts v
  = match ParseContractFile (Visit_path v) with
    | Err err =>
        (contracts,
         Some (mkError ("error parsing file " +:+ Visit_path v +:+ ": "
                          +:+ error_Error err) (Some err)))
    | Ok contract =>
        if nonEmpty (Contract_Name contract)
        then (<[Contract_Name contract := contract]> contracts, None)
        else (contracts, None)
    end.
Proof.
  unfold isDocument, walkFn. destruct (Visit_err v); [done|].
  by intros ->.
Qed.

(** The callback never touches an entry under a name other than the one
    of the document it loads. *)
Lemma walkFn_lookup_other (contracts : gmap string Contract) (v : Visit)
    (name : string) :
  (forall contract,
     isDocument v = true ->
     ParseContractFile (Visit_path v) = Ok contract ->
     Contract_Name contract <> name) ->
  (walkFn contracts v).1 !! name = contracts !! name.
Proof.
  intros Hother. destruct (isDocument v) eqn:Hdoc.
  - rewrite walkFn_document by done.
    destruct (ParseContractFile (Visit_path v)) as [contract|err]; [|done].
    destruct (nonEmpty _); [|done]. simpl.
    apply lookup_insert_ne. by apply Hother.
  - unfold isDocument in Hdoc. unfold walkFn.
    destruct (Visit_err v); [done|]. by rewrite Hdoc.
Qed.

Lemma walkVisits_lookup_other (visits : list Visit)
    (contracts : gmap string Contract) (name : string) :
  (forall v contract,
     v ∈ visits ->
     isDocument v = true ->
     ParseContractFile (Visit_path v) = Ok contract ->
     Contract_Name contract <> name) ->
  (walkVisits visits contracts).1 !! name = contracts !! name.
Proof.
  revert contracts.
  induction visits as [|v visits IH]; intros contracts Hother; simpl; [done|].
  pose proof (walkFn_lookup_other contracts v name) as Hstep.
  destruct (walkFn contracts v) as [contracts' [err|]]; simpl in *.
  - apply Hstep. intros contract ? ?. eapply Hother; [left|done..].
  - rewrite IH.
    + apply Hstep. intros contract ? ?. eapply Hother; [left|done..].
    + intros v' contract ? ? ?. eapply Hother; [by right|done..].
Qed.

Lemma filter_Permutation_bool {A : Type} (p : A -> bool) (l l' : list A) :
  l ≡ₚ l' -> List.filter p l ≡ₚ List.filter p l'.
Proof.
  induction 1 as [|x l l' _ IH|x y l|l l' l'' _ IH1 _ IH2]; simpl.
  - done.
  - destruct (p x); [by constructor | done].
  - destruct (p x), (p y); try done. apply perm_swap.
  - by etrans.
Qed.

(** A map holds one entry per key. *)
Lemma one_entry_per_name (registry : gmap string Contract) (name : string)
    (contract : Contract) :
  registry !! name = Some contract ->
  List.filter (fun entry : string * Contract => String.eqb entry.1 name)
    (map_to_list registry)
  ≡ₚ [(name, contract)].
Proof.
  intros Hlookup.
  rewrite <- (insert_id registry name contract Hlookup) at 1.
  rewrite <- insert_delete_eq.
  etrans.
  { apply filter_Permutation_bool, map_to_list_insert, lookup_delete_eq. }
  simpl. rewrite String.eqb_refl. constructor.
  assert (forall l : list (string * Contract),
            (forall entry, entry ∈ l -> entry.1 <> name) ->
            List.filter (fun entry : string * Contract =>
                           String.eqb entry.1 name) l = []) as Hnone.
  { induction l as [|entry l IH]; intros Hl; simpl; [done|].
    rewrite (proj2 (String.eqb_neq _ _)) by (apply Hl; left).
    apply IH. intros ? ?. apply Hl. by right. }
  rewrite Hnone; [done|].
  intros [k c] [Hk Hc]%elem_of_map_to_list%lookup_delete_Some. by simpl.
Qed.

(** C7: when two documents of a folder load and yield the same non-empty
    contract name, and no document visited after the second one yields that
    name, the registry built from the folder has, under that name, the
    Contract of the second (later-processed) document, and that is its only
    entry under the name. *)
Theorem registry_collision_later_wins (dataFolder : string)
    (pre mid post : list Visit) (v1 v2 : Visit) (c1 c2 : Contract)
    (name : string) (registry : gmap string Contract) :
  Walk dataFolder = pre ++ v1 :: mid ++ v2 :: post ->
  isDocument v1 = true ->
  isDocument v2 = true ->
  ParseContractFile (Visit_path v1) = Ok c1 ->
  ParseContractFile (Visit_path v2) = Ok c2 ->
  Contract_Name c1 = name ->
  Contract_Name c2 = name ->
  name <> "" ->
  (forall v contract,
     v ∈ post ->
     isDocument v = true ->
     ParseContractFile (Visit_path v) = Ok contract ->
     Contract_Name contract <> name) ->
  ParseAllContracts dataFolder = Ok registry ->
  registry !! name = Some c2
  /\ List.filter (fun entry : string * Contract => String.eqb entry.1 name)
       (map_to_list registry)
     ≡ₚ [(name, c2)].
Proof.
  intros Hwalk _ Hdoc2 _ Hload2 _ Hname2 Hname Hpost.
  unfold ParseAllContracts. rewrite Hwalk.
  change (pre ++ v1 :: mid ++ v2 :: post)
    with (pre ++ (v1 :: mid) ++ v2 :: post).
  rewrite app_assoc, walkVisits_app.
  destruct (walkVisits (pre ++ v1 :: mid) ∅) as [before [err|]]; [done|].
  simpl. rewrite walkFn_document, Hload2, Hname2 by done.
  unfold nonEmpty. rewrite (proj2 (String.eqb_neq _ _) Hname). simpl.
  pose proof (walkVisits_lookup_other post (<[name:=c2]> before) name Hpost)
    as Hkept.
  destruct (walkVisits post (<[name:=c2]> before)) as [after [err|]]; [done|].
  intros [= <-]. simpl in Hkept. rewrite lookup_insert_eq in Hkept.
  split; [done|]. by apply one_entry_per_name.
Qed.

(** C8: when the load of a visited document fails, and every visit before
    it went through, the registry build returns that error wrapped under
    "error parsing file PATH: " and no map; and whenever the load of any
    visited document fails, the build returns an error, never a map. *)
Theorem registry_all_or_nothing (dataFolder : string) :
  (forall (pre post : list Visit) (v : Visit) (err : error)
          (before : gmap string Contract),
     Walk dataFolder = pre ++ v :: post ->
     walkVisits pre ∅ = (before, None) ->
     isDocument v = true ->
     ParseContractFile (Visit_path v) = Err err ->
     ParseAllContracts dataFolder
     = Err (mkError ("error parsing file " +:+ Visit_path v +:+ ": "
                       +:+ error_Error err) (Some err)))
  /\ (forall (v : Visit) (err : error),
        v ∈ Walk dataFolder ->
        isDocument v = true ->
        ParseContractFile (Visit_path v) = Err err ->
        exists e, ParseAllContracts dataFolder = Err e).
Proof.
  split.
  - intros pre post v err before Hwalk Hpre Hdoc Hload.
    unfold ParseAllContracts.
    rewrite Hwalk, walkVisits_app, Hpre. simpl.
    by rewrite walkFn_document, Hload.
  - intros v err [pre [post Hwalk]]%list_elem_of_split Hdoc Hload.
    unfold ParseAllContracts.
    rewrite Hwalk, walkVisits_app.
    destruct (walkVisits pre ∅) as [before [e|]]; [by eexists|].
    simpl. rewrite walkFn_document, Hload by done. by eexists.
Qed.

(** * Further properties of the parser *)

(** ** Loader errors *)

(** X1: an error returned by the loader is the read error as [os.ReadFile]
    gave it, or the decode error wrapped under "failed to parse contract
    file PATH: " with the decode error as its cause, or the error "no AST
    found in file PATH" for a decoded document without top-level nodes;
    the extraction itself never adds one. *)
Theorem loader_errors (path : string) (e : error) :
  ParseContractFile path = Err e ->
  ReadFile path = Err e
  \/ (exists data err,
        ReadFile path = Ok data
        /\ Unmarshal data = Err err
        /\ e = mkError ("failed to parse contract file " +:+ path +:+ ": "
                          +:+ error_Error err) (Some err))
  \/ (exists data abiFile,
        ReadFile path = Ok data
        /\ Unmarshal data = Ok abiFile
        /\ AST_Nodes (ABIFile_AST abiFile) = []
        /\ e = mkError ("no AST found in file " +:+ path) None).
Proof.
  unfold ParseContractFile.
  destruct (ReadFile path) as [data|err] eqn:Hread.
  - destruct (Unmarshal data) as [abiFile|err] eqn:Hdecode.
    + destruct (AST_Nodes (ABIFile_AST abiFile)) as [|node nodes] eqn:Hnodes;
        simpl; [|done].
      intros [= <-]. right; right. by exists data, abiFile.
    + intros [= <-]. right; left. by exists data, err.
  - intros [= <-]. by left.
Qed.

(** ** Kinds without a case *)

Lemma extractNode_unrecognized c node :
  isRecognizedNode node = false -> extractNode c node = c.
Proof.
  unfold isRecognizedNode, extractNode, isNodeType.
  generalize (ASTNode_NodeType node); intros nt.
  switch_node_type nt; done.
Qed.

Lemma extractMember_unrecognized c member :
  isRecognizedMember member = false -> extractMember c member = c.
Proof.
  unfold isRecognizedMember, extractMember, isNodeType.
  generalize (ASTNode_NodeType member); intros nt.
  switch_node_type nt; done.
Qed.

Lemma fold_left_skips {S A : Type} (step : S -> A -> S) (keep : A -> bool) :
  (forall s a, keep a = false -> step s a = s) ->
  forall l s, fold_left step l s = fold_left step (List.filter keep l) s.
Proof.
  intros Hskip l. induction l as [|a l IH]; intros s; simpl; [done|].
  destruct (keep a) eqn:Hkeep; simpl.
  - apply IH.
  - rewrite Hskip by done. apply IH.
Qed.

(** X2: top-level nodes of a kind other than pragma directive, import
    directive and contract definition do not influence the extraction: a
    document and the same document with those nodes removed give the same
    Contract. *)
Theorem unrecognized_nodes_skipped (nodes : list ASTNode) (c0 : Contract) :
  ExtractContractInfoFromAST (mkAST nodes) c0
  = ExtractContractInfoFromAST (mkAST (List.filter isRecognizedNode nodes)) c0.
Proof.
  unfold ExtractContractInfoFromAST. simpl. f_equal.
  apply fold_left_skips. intros c node. apply extractNode_unrecognized.
Qed.

(** X3: a contract definition is read through its base contracts and its
    members of the six kinds with a case (variable declaration, function,
    event, modifier, struct and enum definition): two contract-definition
    nodes that agree on these give the same Contract, whatever other
    members they hold. *)
Theorem unrecognized_members_skipped (node1 node2 : ASTNode) (c0 : Contract) :
  ASTNode_BaseContracts node1 = ASTNode_BaseContracts node2 ->
  List.filter isRecognizedMember (ASTNode_Nodes node1)
  = List.filter isRecognizedMember (ASTNode_Nodes node2) ->
  ExtractContractDefinition node1 c0 = ExtractContractDefinition node2 c0.
Proof.
  intros Hbases Hmembers. rewrite !ExtractContractDefinition_eq.
  unfold baseNames. rewrite Hbases.
  rewrite (fold_left_skips extractMember isRecognizedMember)
    by (intros c m; apply extractMember_unrecognized).
  rewrite Hmembers.
  symmetry. apply fold_left_skips. intros c m. apply extractMember_unrecognized.
Qed.

(** ** What extraction adds *)

Lemma extractMember_Imports c m :
  Contract_Imports (extractMember c m) = Contract_Imports c.
Proof. member_step c m. Qed.

Lemma extractNode_Imports c node :
  Contract_Imports (extractNode c node)
  = Contract_Imports c
    ++ (if isNodeType "ImportDirective" node
        then [ExtractImportDirective node] else []).
Proof.
  node_step c node.
  rewrite ExtractContractDefinition_eq.
  rewrite (fold_left_preserves _ Contract_Imports extractMember_Imports).
  destruct (String.eqb _ _); by destruct c.
Qed.

Lemma document_Imports nodes c :
  Contract_Imports (fold_left extractNode nodes c)
  = Contract_Imports c
    ++ map ExtractImportDirective
         (List.filter (isNodeType "ImportDirective") nodes).
Proof.
  rewrite (fold_left_appends _ Contract_Imports _ extractNode_Imports).
  by rewrite flat_map_select.
Qed.

(** X4: the Imports of the extracted Contract are the incoming ones
    followed by one Import per import-directive node, in document order and
    wherever the directive stands among the other nodes; each carries the
    node's absolute path, file and, as alias, its name. *)
Theorem imports_in_document_order (nodes : list ASTNode) (c0 : Contract) :
  Contract_Imports (ExtractContractInfoFromAST (mkAST nodes) c0).1
  = Contract_Imports c0
    ++ map (fun node : ASTNode =>
              mkImport (ASTNode_AbsolutePath node) (ASTNode_File node)
                (ASTNode_Name node))
         (List.filter (isNodeType "ImportDirective") nodes).
Proof. apply document_Imports. Qed.

(** X5: extraction only ever appends to the ordered collections: each of
    Imports, Inherits, Variables, Mappings, Functions, Events, Modifiers,
    Structs and Enums of the incoming Contract is a prefix of the same
    collection of the result, so no entry is removed or reordered. *)
Theorem extraction_only_appends (nodes : list ASTNode) (c0 : Contract) :
  let c := (ExtractContractInfoFromAST (mkAST nodes) c0).1 in
  Contract_Imports c0 `prefix_of` Contract_Imports c
  /\ Contract_Inherits c0 `prefix_of` Contract_Inherits c
  /\ Contract_Variables c0 `prefix_of` Contract_Variables c
  /\ Contract_Mappings c0 `prefix_of` Contract_Mappings c
  /\ Contract_Functions c0 `prefix_of` Contract_Functions c
  /\ Contract_Events c0 `prefix_of` Contract_Events c
  /\ Contract_Modifiers c0 `prefix_of` Contract_Modifiers c
  /\ Contract_Structs c0 `prefix_of` Contract_Structs c
  /\ Contract_Enums c0 `prefix_of` Contract_Enums c.
Proof.
  simpl. repeat split; eexists.
  - apply document_Imports.
  - apply document_Inherits.
  - apply document_Variables.
  - apply document_Mappings.
  - apply document_Functions.
  - apply document_Events.
  - apply document_Modifiers.
  - apply document_Structs.
  - apply document_Enums.
Qed.

Lemma length_filter_cons {A : Type} (p : A -> bool) (a : A) (l : list A) :
  length (List.filter p (a :: l))
  = ((if p a then 1 else 0) + length (List.filter p l))%nat.
Proof. simpl. by destruct (p a). Qed.

(** Each member of a kind with a case passes one of the eight tests
    below, and a member of another kind passes none. *)
Lemma member_counted_once (m : ASTNode) :
  ((if isPlainDeclaration m then 1 else 0)
   + (if isMappingDeclaration m then 1 else 0)
   + (if isOtherFunctionDefinition m then 1 else 0)
   + (if isConstructorDefinition m then 1 else 0)
   + (if isNodeType "EventDefinition" m then 1 else 0)
   + (if isNodeType "ModifierDefinition" m then 1 else 0)
   + (if isNodeType "StructDefinition" m then 1 else 0)
   + (if isNodeType "EnumDefinition" m then 1 else 0))%nat
  = if isRecognizedMember m then 1%nat else 0%nat.
Proof.
  unfold isPlainDeclaration, isMappingDeclaration, isOtherFunctionDefinition,
    isConstructorDefinition, isRecognizedMember, isNodeType.
  generalize (ASTNode_NodeType m); intros nt.
  switch_node_type nt;
    try destruct (isMappingType _); try destruct (String.eqb _ _);
    reflexivity.
Qed.

Lemma members_counted_once (members : list ASTNode) :
  (length (List.filter isPlainDeclaration members)
   + length (List.filter isMappingDeclaration members)
   + length (List.filter isOtherFunctionDefinition members)
   + length (List.filter isConstructorDefinition members)
   + length (List.filter (isNodeType "EventDefinition") members)
   + length (List.filter (isNodeType "ModifierDefinition") members)
   + length (List.filter (isNodeType "StructDefinition") members)
   + length (List.filter (isNodeType "EnumDefinition") members))%nat
  = length (List.filter isRecognizedMember members).
Proof.
  induction members as [|m members IH]; [done|].
  rewrite !length_filter_cons.
  pose proof (member_counted_once m). lia.
Qed.

(** X6: no member is lost and none is taken twice: in the Contract
    extracted into a fresh one, the entries of Variables, Mappings,
    Functions, Events, Modifiers, Structs and Enums, together with the
    constructor definitions met, are as many as the members of the six
    kinds with a case over all contract definitions of the document. *)
Theorem members_conserved (nodes : list ASTNode) (name : string) :
  let c := (ExtractContractInfoFromAST (mkAST nodes) (newContract name)).1 in
  let members := contractMembers nodes in
  (length (Contract_Variables c) + length (Contract_Mappings c)
   + length (Contract_Functions c)
   + length (List.filter isConstructorDefinition members)
   + length (Contract_Events c) + length (Contract_Modifiers c)
   + length (Contract_Structs c) + length (Contract_Enums c))%nat
  = length (List.filter isRecognizedMember members).
Proof.
  simpl.
  rewrite document_Variables, document_Mappings, document_Functions,
    document_Events, document_Modifiers, document_Structs, document_Enums.
  simpl. rewrite !length_map. apply members_counted_once.
Qed.

(** ** What the registry holds *)

(** A call of the callback that returns nil leaves the map with the loaded
    Contract inserted under its name, when there is one and the name is not
    empty, and untouched otherwise. *)
Lemma walkFn_success (contracts contracts' : gmap string Contract) (v : Visit) :
  walkFn contracts v = (contracts', None) ->
  contracts'
  = match loadedContract v with
    | Some contract =>
        if nonEmpty (Contract_Name contract)
        then <[Contract_Name contract := contract]> contracts
        else contracts
    | None => contracts
    end.
Proof.
  unfold loadedContract. destruct (isDocument v) eqn:Hdoc.
  - rewrite walkFn_document by done.
    destruct (ParseContractFile (Visit_path v)) as [contract|err]; [|done].
    destruct (nonEmpty _); by intros [= <-].
  - unfold isDocument in Hdoc. unfold walkFn.
    destruct (Visit_err v); [done|]. rewrite Hdoc. by intros [= <-].
Qed.

Lemma walkVisits_success_lookup (visits : list Visit)
    (contracts contracts' : gmap string Contract) (name : string) :
  walkVisits visits contracts = (contracts', None) ->
  contracts' !! name
  = if nonEmpty name then
      match last (List.filter (hasName name) (loadedContracts visits)) with
      | Some contract => Some contract
      | None => contracts !! name
      end
    else contracts !! name.
Proof.
  revert contracts.
  induction visits as [|v visits IH]; intros contracts; simpl.
  - intros [= <-]. by destruct (nonEmpty name).
  - destruct (walkFn contracts v) as [contracts1 [err|]] eqn:Hstep; [done|].
    intros Hrest. rewrite (IH _ Hrest). apply walkFn_success in Hstep.
    unfold loadedContracts. csimpl. fold (loadedContracts visits).
    destruct (nonEmpty name) eqn:Hname; subst contracts1.
    + destruct (loadedContract v) as [contract|]; [|done].
      cbn [List.filter]. unfold hasName at 2.
      destruct (String.eqb_spec (Contract_Name contract) name) as [Hc|Hc].
      * rewrite last_cons, Hc, Hname, lookup_insert_eq.
        by destruct (last _).
      * destruct (last _); [done|].
        destruct (nonEmpty (Contract_Name contract)); [|done].
        by apply lookup_insert_ne.
    + destruct (loadedContract v) as [contract|]; [|done].
      destruct (nonEmpty (Contract_Name contract)) eqn:Hc; [|done].
      apply lookup_insert_ne. intros Heq. rewrite Heq in Hc. congruence.
Qed.

(** X7: the registry of a successful build maps every non-empty name to
    the Contract of the last loaded document that yields this name, has no
    entry for a name no loaded document yields, and none under the empty
    name. *)
Theorem registry_lookup (dataFolder : string)
    (registry : gmap string Contract) (name : string) :
  ParseAllContracts dataFolder = Ok registry ->
  registry !! name
  = if nonEmpty name
    then last (List.filter (hasName name)
                 (loadedContracts (Walk dataFolder)))
    else None.
Proof.
  unfold ParseAllContracts.
  destruct (walkVisits (Walk dataFolder) ∅) as [contracts [err|]] eqn:Hwalk;
    [done|].
  intros [= <-]. rewrite (walkVisits_success_lookup _ _ _ name Hwalk).
  rewrite lookup_empty. destruct (nonEmpty name); [|done].
  by destruct (last _).
Qed.

Lemma loadedContracts_elem (visits : list Visit) (contract : Contract) :
  contract ∈ loadedContracts visits ->
  exists v, v ∈ visits /\ isDocument v = true
            /\ ParseContractFile (Visit_path v) = Ok contract.
Proof.
  unfold loadedContracts. intros (v & Hv & Hloaded)%list_elem_of_omap.
  exists v. split; [done|]. unfold loadedContract in Hloaded.
  destruct (isDocument v); [|done]. split; [done|].
  destruct (ParseContractFile (Visit_path v)); by simplify_eq.
Qed.

(** X8: every entry of a built registry is filed under the name of its own
    Contract, that name is not empty, and the Contract is the one a visited
    document loaded as. *)
Theorem registry_entries_named (dataFolder : string)
    (registry : gmap string Contract) (name : string) (contract : Contract) :
  ParseAllContracts dataFolder = Ok registry ->
  registry !! name = Some contract ->
  Contract_Name contract = name
  /\ name <> ""
  /\ exists v, v ∈ Walk dataFolder /\ isDocument v = true
               /\ ParseContractFile (Visit_path v) = Ok contract.
Proof.
  unfold ParseAllContracts.
  destruct (walkVisits (Walk dataFolder) ∅) as [contracts [err|]] eqn:Hwalk;
    [done|].
  intros [= <-]. rewrite (walkVisits_success_lookup _ _ _ name Hwalk).
  rewrite lookup_empty. unfold nonEmpty.
  destruct (String.eqb_spec name "") as [|Hname]; simpl; [done|].
  destruct (last _) as [c|] eqn:Hlast; [|done]. intros [= ->].
  apply last_Some_elem_of, list_elem_of_In, List.filter_In in Hlast
    as [Hin Hc].
  split; [by apply String.eqb_eq in Hc|]. split; [done|].
  by apply loadedContracts_elem, list_elem_of_In.
Qed.

Lemma walkFn_other (contracts : gmap string Contract) (v : Visit) :
  Visit_err v = None -> isDocument v = false ->
  walkFn contracts v = (contracts, None).
Proof.
  unfold isDocument, walkFn. intros ->. by intros ->.
Qed.

Lemma walkVisits_documents (visits : list Visit)
    (contracts : gmap string Contract) :
  (forall v, v ∈ visits -> Visit_err v = None) ->
  walkVisits visits contracts
  = walkVisits (List.filter isDocument visits) contracts.
Proof.
  revert contracts.
  induction visits as [|v visits IH]; intros contracts Hok; simpl; [done|].
  assert (forall v', v' ∈ visits -> Visit_err v' = None) as Hrest
    by (intros v' ?; apply Hok; by right).
  destruct (isDocument v) eqn:Hdoc; simpl.
  - destruct (walkFn contracts v) as [contracts' [err|]]; [done|]. by apply IH.
  - rewrite walkFn_other by (done || apply Hok; left). by apply IH.
Qed.

(** X9: when the walk reports no access error, directories and files whose
    extension is not ".json" play no part: the build returns what walking
    the documents alone returns. *)
Theorem registry_ignores_other_files (dataFolder : string) :
  (forall v, v ∈ Walk dataFolder -> Visit_err v = None) ->
  ParseAllContracts dataFolder
  = match walkVisits (List.filter isDocument (Walk dataFolder)) ∅ with
    | (_, Some err) => Err err
    | (contracts, None) => Ok contracts
    end.
Proof.
  intros Hok. unfold ParseAllContracts. by rewrite walkVisits_documents.
Qed.

(** X10: an access error the walk reports for a path, directory or file of
    any extension, ends the build: when the visits before it went through,
    the build returns that error wrapped under "error accessing file
    PATH: " and no map. *)
Theorem registry_access_error (dataFolder : string) (pre post : list Visit)
    (v : Visit) (err : error) (before : gmap string Contract) :
  Walk dataFolder = pre ++ v :: post ->
  walkVisits pre ∅ = (before, None) ->
  Visit_err v = Some err ->
  ParseAllContracts dataFolder
  = Err (mkError ("error accessing file " +:+ Visit_path v +:+ ": "
                    +:+ error_Error err) (Some err)).
Proof.
  intros Hwalk Hpre Herr. unfold ParseAllContracts.
  rewrite Hwalk, walkVisits_app, Hpre. simpl.
  unfold walkFn. by rewrite Herr.
Qed.

Lemma walkVisits_size (visits : list Visit)
    (contracts contracts' : gmap string Contract) (err : option error) :
  walkVisits visits contracts = (contracts', err) ->
  (size contracts'
   <= size contracts + length (List.filter isDocument visits))%nat.
Proof.
  revert contracts.
  induction visits as [|v visits IH]; intros contracts; simpl.
  - intros [= <- _]. lia.
  - assert (size (walkFn contracts v).1
            <= size contracts + (if isDocument v then 1 else 0))%nat as Hstep.
    { destruct (isDocument v) eqn:Hdoc.
      - rewrite walkFn_document by done.
        destruct (ParseContractFile (Visit_path v)) as [c|e]; simpl; [|lia].
        destruct (nonEmpty _); simpl; [|lia].
        rewrite map_size_insert. destruct (contracts !! _); simpl; lia.
      - unfold isDocument in Hdoc. unfold walkFn.
        destruct (Visit_err v); simpl; [lia|]. rewrite Hdoc. simpl. lia. }
    destruct (walkFn contracts v) as [contracts1 [e|]]; simpl in Hstep.
    + intros [= <- _]. destruct (isDocument v); simpl; lia.
    + intros Hrest. apply IH in Hrest.
      destruct (isDocument v); simpl; lia.
Qed.

(** X11: a built registry has at most as many entries as the walk met
    documents. *)
Theorem registry_size_bound (dataFolder : string)
    (registry : gmap string Contract) :
  ParseAllContracts dataFolder = Ok registry ->
  (size registry <= length (List.filter isDocument (Walk dataFolder)))%nat.
Proof.
  unfold ParseAllContracts.
  destruct (walkVisits (Walk dataFolder) ∅) as [contracts [err|]] eqn:Hwalk;
    [done|].
  intros [= <-]. apply walkVisits_size in Hwalk.
  by rewrite map_size_empty in Hwalk.
Qed.

(** ** More on the renderers *)

(** X12: a user-defined type renders as the first non-empty string among
    the type string of its type description, its declared name and the name
    of its path node, and as the empty string when all three are empty or
    absent. *)
Theorem user_defined_type_resolution (t : TypeName) :
  TypeName_NodeType t = "UserDefinedTypeName" ->
  let typeString :=
    match TypeName_TypeDescriptions t with
    | Some td => TypeDescriptions_TypeString td
    | None => ""
    end in
  let pathName :=
    match TypeName_PathNode t with
    | Some pathNode => IdentifierPath_Name pathNode
    | None => ""
    end in
  extractTypeName (Some t)
  = if nonEmpty typeString then typeString
    else if nonEmpty (TypeName_Name t) then TypeName_Name t
    else pathName.
Proof.
  intros Hkind. rewrite extractTypeName_Some, Hkind. simpl.
  destruct (TypeName_TypeDescriptions t) as [td|]; simpl.
  - destruct (nonEmpty (TypeDescriptions_TypeString td)); [done|].
    destruct (nonEmpty (TypeName_Name t)); [done|].
    destruct (TypeName_PathNode t) as [p|]; [|done].
    unfold nonEmpty. by destruct (String.eqb_spec (IdentifierPath_Name p) "").
  - destruct (nonEmpty (TypeName_Name t)); [done|].
    destruct (TypeName_PathNode t) as [p|]; [|done].
    unfold nonEmpty. by destruct (String.eqb_spec (IdentifierPath_Name p) "").
Qed.

(** X13: a function-call node renders as the callee, an opening
    parenthesis, the arguments each rendered by [extractValue] and joined
    by ", ", and a closing parenthesis.  The callee is the name of the
    called expression when that is an Identifier node and the empty string
    for a called expression of any other kind; a call without called
    expression renders as the empty string. *)
Theorem function_call_rendering (node : ASTNode) :
  ASTNode_NodeType node = "FunctionCall" ->
  extractValueFromNode (Some node)
  = match ASTNode_Expression node with
    | None => ""
    | Some expression =>
        (if String.eqb (ASTNode_NodeType expression) "Identifier"
         then ASTNode_Name expression else "")
        +:+ "("
        +:+ Join (map (fun arg => extractValue (FromJSON arg))
                    (ASTNode_Arguments node)) ", "
        +:+ ")"
    end.
Proof.
  intros Hkind. unfold extractValueFromNode, extractValueFromNode_.
  rewrite Hkind. simpl. by destruct (ASTNode_Expression node).
Qed.

(** ** The list widget *)

(** X14: [validateSelectedRow] keeps the rows and clamps the selected row
    into the list: the new selection is the old one bounded below by 0 and
    above by the last index, hence 0 for an empty list and a valid index of
    a non-empty one. *)
Theorem validateSelectedRow_clamps (list : widgets_List) :
  let len := Z.of_nat (length (List_Rows list)) in
  let list' := validateSelectedRow list in
  List_Rows list' = List_Rows list
  /\ List_SelectedRow list'
     = Z.max 0 (Z.min (List_SelectedRow list) (len - 1))
  /\ (List_Rows list = [] -> List_SelectedRow list' = 0%Z)
  /\ (List_Rows list <> [] -> (0 <= List_SelectedRow list' < len)%Z).
Proof.
  destruct list as [rows selected]. unfold validateSelectedRow. simpl.
  assert (rows = [] \/ (0 < Z.of_nat (length rows))%Z) as Hrows
    by (destruct rows; [by left | right; simpl; lia]).
  destruct (Z.eqb_spec (Z.of_nat (length rows)) 0);
    [|destruct (Z.leb_spec (Z.of_nat (length rows)) selected);
       [|destruct (Z.ltb_spec selected 0)]];
    simpl; repeat split; try lia; try (intros ->; simpl in *; lia);
    try (destruct Hrows as [->|?]; simpl in *; (done || lia)).
Qed.

(** X15: [validateSelectedRow] leaves a list alone whose selection is a
    valid index, and a second call never changes what the first returned. *)
Theorem validateSelectedRow_idempotent (list : widgets_List) :
  ((0 <= List_SelectedRow list < Z.of_nat (length (List_Rows list)))%Z ->
   validateSelectedRow list = list)
  /\ validateSelectedRow (validateSelectedRow list) = validateSelectedRow list.
Proof.
  destruct list as [rows selected]. unfold validateSelectedRow. simpl. split.
  - intros Hvalid.
    destruct (Z.eqb_spec (Z.of_nat (length rows)) 0); [lia|].
    destruct (Z.leb_spec (Z.of_nat (length rows)) selected); [lia|].
    by destruct (Z.ltb_spec selected 0); [lia|].
  - destruct (Z.eqb_spec (Z.of_nat (length rows)) 0) as [Hlen|Hlen]; simpl.
    + by rewrite Hlen.
    + destruct (Z.leb_spec (Z.of_nat (length rows)) selected); simpl.
      * destruct (Z.eqb_spec (Z.of_nat (length rows)) 0); [lia|].
        destruct (Z.leb_spec (Z.of_nat (length rows))
                    (Z.of_nat (length rows) - 1)); [lia|].
        by destruct (Z.ltb_spec (Z.of_nat (length rows) - 1) 0); [lia|].
      * destruct (Z.ltb_spec selected 0); simpl.
        -- destruct (Z.eqb_spec (Z.of_nat (length rows)) 0); [lia|].
           by destruct (Z.leb_spec (Z.of_nat (length rows)) 0); [lia|].
        -- destruct (Z.eqb_spec (Z.of_nat (length rows)) 0); [lia|].
           destruct (Z.leb_spec (Z.of_nat (length rows)) selected); [lia|].
           by destruct (Z.ltb_spec selected 0); [lia|].
Qed.

(** ** The inheritance-only parser *)

Lemma inheritance_names_loop (bases : list InheritanceParser.BaseContract)
    (inherits : list string) :
  fold_left
    (fun inherits baseContract =>
       inherits
       ++ [InheritanceParser.BaseName_Name
             (InheritanceParser.BaseContract_BaseName baseContract)])
    bases inherits
  = inherits
    ++ map (fun baseContract =>
              InheritanceParser.BaseName_Name
                (InheritanceParser.BaseContract_BaseName baseContract))
         bases.
Proof.
  revert inherits. induction bases as [|b bases IH]; intros inherits; simpl.
  - by rewrite app_nil_r.
  - by rewrite IH, <- app_assoc.
Qed.

(** X16: the inheritance-only parser reads the base contracts of the first
    contract-definition node of a document and of no other: its result is
    the list of their names in declaration order, and the empty list for a
    document without contract definition. *)
Theorem inheritance_from_first_contract (ast : InheritanceParser.AST) :
  InheritanceParser.ExtractInheritanceFromAST ast
  = match List.find
            (fun node =>
               String.eqb (InheritanceParser.ASTNode_NodeType node)
                 "ContractDefinition")
            (InheritanceParser.AST_Nodes ast)
    with
    | Some node =>
        map (fun baseContract =>
               InheritanceParser.BaseName_Name
                 (InheritanceParser.BaseContract_BaseName baseContract))
          (InheritanceParser.ASTNode_BaseContracts node)
    | None => []
    end.
Proof.
  unfold InheritanceParser.ExtractInheritanceFromAST.
  induction (InheritanceParser.AST_Nodes ast) as [|node nodes IH]; simpl.
  - done.
  - unfold InheritanceParser.ExtractInheritanceFromNode.
    destruct (String.eqb _ _); [|done].
    by rewrite inheritance_names_loop.
Qed.

(** ** Struct definitions *)

(** X17: a struct-definition member adds one Struct to Structs and
    nothing to Variables or Mappings: all members of the struct node, in
    order and mapping-typed ones included, become the Members of that
    Struct. *)
Theorem struct_members_stay_in_struct (c : Contract) (member : ASTNode) :
  ASTNode_NodeType member = "StructDefinition" ->
  let c' := extractMember c member in
  Contract_Variables c' = Contract_Variables c
  /\ Contract_Mappings c' = Contract_Mappings c
  /\ exists s,
       Contract_Structs c' = Contract_Structs c ++ [s]
       /\ Struct_Name s = ASTNode_Name member
       /\ Struct_Members s = map ExtractVariable (ASTNode_Members member)
       /\ length (Struct_Members s) = length (ASTNode_Members member).
Proof.
  intros Hkind. simpl.
  rewrite extractMember_Variables, extractMember_Mappings,
    extractMember_Structs.
  unfold isPlainDeclaration, isMappingDeclaration, isNodeType.
  rewrite Hkind. simpl. rewrite !app_nil_r. repeat split.
  exists (ExtractStruct member). repeat split. simpl. apply length_map.
Qed.

End Parser.

(** * The sample documents *)

(** C1 (as stated) fails: on a document with the contract definitions A
    and B, the variable y and the base contract Base of the second
    definition are in the extracted Contract, so the result differs from
    that of the same document cut down to its first contract definition. *)
Lemma later_contract_definitions_not_ignored :
  let c := (ExtractContractInfoFromAST noNumbers (mkAST twoContracts)
              (newContract "")).1 in
  let first_only :=
    (ExtractContractInfoFromAST noNumbers
       (mkAST (firstContractOnly twoContracts)) (newContract "")).1 in
  c <> first_only
  /\ Contract_Name c = "A"
  /\ map Variable_Name (Contract_Variables c) = ["x"; "y"]
  /\ Contract_Inherits c = ["Base"]
  /\ map Variable_Name (Contract_Variables first_only) = ["x"]
  /\ Contract_Inherits first_only = [].
Proof.
  simpl. split; [|by vm_compute].
  intros H. apply (f_equal Contract_Inherits) in H. vm_compute in H.
  discriminate H.
Qed.

(** C2 fails on the code: for the initial value 1 + 2 the reconstructor
    returns "( + )" and for -1 it returns "-", although it renders the
    operands, given on their own, as "1" and "2": the operand pointers fall
    into the default branch of the type switch of [extractValue]. *)
Lemma operands_not_rendered :
  extractValueFromNode noNumbers (Some (literalNode "1")) = "1"
  /\ extractValueFromNode noNumbers (Some (literalNode "2")) = "2"
  /\ extractValueFromNode noNumbers (Some (binaryNode "+" "1" "2")) = "( + )"
  /\ extractValueFromNode noNumbers (Some (unaryNode "-" "1")) = "-"
  /\ extractValue noNumbers (FromJSON (literalJSON "1")) = "1"
  /\ extractValue noNumbers (FromJSON (literalJSON "2")) = "2"
  /\ extractValue noNumbers (FromJSON (binaryJSON "+" "1" "2")) = "( + )"
  /\ extractValue noNumbers (FromJSON (unaryJSON "-" "1")) = "-"
  /\ Variable_Value (ExtractVariable noNumbers limitDeclaration) = "( + )".
Proof. by vm_compute. Qed.

Lemma variable_declaration_placement_witness :
  let c := newContract "Token" in
  let c' := extractMember noNumbers c balancesDeclaration in
  Contract_Mappings c'
  = Contract_Mappings c ++ [ExtractVariable noNumbers balancesDeclaration]
  /\ Contract_Variables c' = Contract_Variables c.
Proof.
  destruct (proj1 (variable_declaration_placement noNumbers)
              (newContract "Token") balancesDeclaration eq_refl)
    as [(_ & HM & HV) | (Hno & _)].
  - by split.
  - exfalso. apply Hno. eexists. split; reflexivity.
Defined.

Lemma constructor_slot_witness :
  exists contract,
    ParseContractFile noNumbers sampleReadFile sampleUnmarshal "data/a.json"
    = Ok contract
    /\ Forall (fun f => Function_Kind f <> "constructor")
         (Contract_Functions contract)
    /\ Contract_Constructor contract
       = Some (ExtractFunction noNumbers (functionNode "" "constructor")).
Proof.
  eexists. split; [reflexivity|].
  apply (proj2 (constructor_slot noNumbers sampleReadFile sampleUnmarshal)
           "data/a.json" [Byte.x01] tokenA); reflexivity.
Defined.

Lemma document_name_takes_precedence_witness :
  exists contract,
    ParseContractFile noNumbers sampleReadFile sampleUnmarshal "data/b.json"
    = Ok contract
    /\ Contract_Name contract = "Token".
Proof.
  eexists. split; [reflexivity|].
  apply (document_name_takes_precedence noNumbers sampleReadFile
           sampleUnmarshal "data/b.json" [Byte.x02] tokenB);
    [reflexivity | reflexivity | reflexivity | discriminate].
Defined.

Lemma missing_ast_error_witness :
  ParseContractFile noNumbers sampleReadFile sampleUnmarshal
    "broken/empty.json"
  = Err (mkError "no AST found in file broken/empty.json" None).
Proof.
  apply (missing_ast_error noNumbers sampleReadFile sampleUnmarshal
           "broken/empty.json" [Byte.x03] emptyDocument);
    reflexivity.
Defined.

(** C6 fails on the code for a fixed-size array.  The length of
    [uint256[3]] reaches the renderer as the decoded Literal node, a map, and
    [extractTypeName] prints that map with the %v verb: the type renders as
    "uint256[map[nodeType:Literal value:3]]", not as "uint256[3]", although
    the value reconstructor renders the same Literal as "3".  A mapping
    and an array without length render as the claim says. *)
Lemma fixed_length_rendered_as_map :
  extractTypeName noNumbers
    (Some (arrayType (elementaryType "uint256") (literalJSON "3")))
  = "uint256[map[nodeType:Literal value:3]]"
  /\ extractTypeName noNumbers
       (Some (arrayType (elementaryType "uint256") (literalJSON "3")))
     <> "uint256[3]"
  /\ extractValue noNumbers (FromJSON (literalJSON "3")) = "3"
  /\ extractTypeName noNumbers
       (Some (arrayType (elementaryType "uint256") JNull))
     = "uint256[]"
  /\ extractTypeName noNumbers
       (Some (mappingType (elementaryType "address")
                (elementaryType "uint256")))
     = "mapping(address => uint256)".
Proof.
  split; [by vm_compute|]. split; [|by vm_compute].
  intros H. vm_compute in H. discriminate H.
Qed.

Lemma registry_collision_later_wins_witness :
  exists registry c2,
    ParseAllContracts noNumbers sampleReadFile sampleUnmarshal sampleWalk
      "data" = Ok registry
    /\ ParseContractFile noNumbers sampleReadFile sampleUnmarshal
         "data/b.json" = Ok c2
    /\ registry !! "Token" = Some c2.
Proof.
  eexists _, _. split; [reflexivity|]. split; [reflexivity|].
  eapply (registry_collision_later_wins noNumbers sampleReadFile
            sampleUnmarshal sampleWalk "data"
            [mkVisit "data" true None] [] []
            (mkVisit "data/a.json" false None)
            (mkVisit "data/b.json" false None));
    try reflexivity.
  - discriminate.
  - intros v contract Hv. by apply elem_of_nil in Hv.
Defined.

Lemma registry_all_or_nothing_witness :
  ParseAllContracts noNumbers sampleReadFile sampleUnmarshal sampleWalk
    "broken"
  = Err (mkError
           "error parsing file broken/empty.json: no AST found in file broken/empty.json"
           (Some (mkError "no AST found in file broken/empty.json" None))).
Proof.
  apply (proj1 (registry_all_or_nothing noNumbers sampleReadFile
                  sampleUnmarshal sampleWalk "broken")
           [mkVisit "broken" true None; mkVisit "broken/a.json" false None]
           [mkVisit "broken/b.json" false None]
           (mkVisit "broken/empty.json" false None)
           (mkError "no AST found in file broken/empty.json" None)
           (<["Token" :=
                (ExtractContractInfoFromAST noNumbers (ABIFile_AST tokenA)
                   (newContract "Token")).1]> ∅));
    reflexivity.
Defined.

(** * The further properties on the sample documents *)

Lemma loader_errors_witness :
  sampleReadFile "data/missing.json"
  = Err (mkError "open data/missing.json: no such file or directory" None)
  \/ (exists data err,
        sampleReadFile "data/missing.json" = Ok data
        /\ sampleUnmarshal data = Err err
        /\ mkError "open data/missing.json: no such file or directory" None
           = mkError ("failed to parse contract file " +:+ "data/missing.json"
                        +:+ ": " +:+ error_Error err) (Some err))
  \/ (exists data abiFile,
        sampleReadFile "data/missing.json" = Ok data
        /\ sampleUnmarshal data = Ok abiFile
        /\ AST_Nodes (ABIFile_AST abiFile) = []
        /\ mkError "open data/missing.json: no such file or directory" None
           = mkError ("no AST found in file " +:+ "data/missing.json") None).
Proof.
  apply (loader_errors noNumbers sampleReadFile sampleUnmarshal
           "data/missing.json"
           (mkError "open data/missing.json: no such file or directory" None)).
  reflexivity.
Defined.

Lemma unrecognized_members_skipped_witness :
  ExtractContractDefinition noNumbers
    (contractNode "A" ["Base"]
       [ sampleNode "UsingForDirective" "" "" "" [] [] [] None JNull
           None None None;
         variableNode "x" (elementaryType "uint256") JNull ])
    (newContract "")
  = ExtractContractDefinition noNumbers
      (contractNode "B" ["Base"]
         [ variableNode "x" (elementaryType "uint256") JNull;
           sampleNode "ErrorDefinition" "Denied" "" "" [] [] [] None JNull
             None None None ])
      (newContract "").
Proof.
  apply (unrecognized_members_skipped noNumbers); reflexivity.
Defined.

Lemma registry_lookup_witness :
  exists registry,
    ParseAllContracts noNumbers sampleReadFile sampleUnmarshal sampleWalk
      "data" = Ok registry
    /\ registry !! "Token"
       = last (List.filter (hasName "Token")
                 (loadedContracts noNumbers sampleReadFile sampleUnmarshal
                    (sampleWalk "data"))).
Proof.
  eexists. split; [reflexivity|].
  apply (registry_lookup noNumbers sampleReadFile sampleUnmarshal sampleWalk
           "data" _ "Token").
  reflexivity.
Defined.

Lemma registry_entries_named_witness :
  exists contract,
    ParseContractFile noNumbers sampleReadFile sampleUnmarshal "data/b.json"
    = Ok contract
    /\ Contract_Name contract = "Token"
    /\ "Token" <> ""
    /\ exists v, v ∈ sampleWalk "data" /\ isDocument v = true
                 /\ ParseContractFile noNumbers sampleReadFile sampleUnmarshal
                      (Visit_path v) = Ok contract.
Proof.
  eexists. split; [reflexivity|].
  eapply (registry_entries_named noNumbers sampleReadFile sampleUnmarshal
            sampleWalk "data"); reflexivity.
Defined.

Lemma registry_ignores_other_files_witness :
  ParseAllContracts noNumbers sampleReadFile sampleUnmarshal sampleWalk "data"
  = match
      walkVisits noNumbers sampleReadFile sampleUnmarshal
        (List.filter isDocument (sampleWalk "data")) ∅
    with
    | (_, Some err) => Err err
    | (contracts, None) => Ok contracts
    end.
Proof.
  apply (registry_ignores_other_files noNumbers sampleReadFile
           sampleUnmarshal sampleWalk "data").
  intros v Hv. simpl in Hv.
  repeat (apply elem_of_cons in Hv as [->|Hv]; [reflexivity|]).
  by apply elem_of_nil in Hv.
Defined.

Lemma registry_access_error_witness :
  ParseAllContracts noNumbers sampleReadFile sampleUnmarshal sampleWalk
    "nowhere"
  = Err (mkError
           "error accessing file nowhere: lstat nowhere: no such file or directory"
           (Some (mkError "lstat nowhere: no such file or directory" None))).
Proof.
  apply (registry_access_error noNumbers sampleReadFile sampleUnmarshal
           sampleWalk "nowhere" [] []
           (mkVisit "nowhere" false
              (Some (mkError "lstat nowhere: no such file or directory" None)))
           (mkError "lstat nowhere: no such file or directory" None) ∅);
    reflexivity.
Defined.

Lemma registry_size_bound_witness :
  exists registry,
    ParseAllContracts noNumbers sampleReadFile sampleUnmarshal sampleWalk
      "data" = Ok registry
    /\ (size registry <= 2)%nat.
Proof.
  eexists. split; [reflexivity|].
  apply (registry_size_bound noNumbers sampleReadFile sampleUnmarshal
           sampleWalk "data").
  reflexivity.
Defined.

Lemma user_defined_type_resolution_witness :
  extractTypeName noNumbers (Some (userDefinedType "" "Token" "IToken"))
  = "Token".
Proof.
  apply (user_defined_type_resolution noNumbers
           (userDefinedType "" "Token" "IToken")).
  reflexivity.
Defined.

Lemma function_call_rendering_witness :
  extractValueFromNode noNumbers
    (Some (callNode (Some (identifierNode "keccak256"))
             [literalJSON "1"; JString "x"]))
  = "keccak256(1, x)".
Proof.
  apply (function_call_rendering noNumbers
           (callNode (Some (identifierNode "keccak256"))
              [literalJSON "1"; JString "x"])).
  reflexivity.
Defined.

Lemma validateSelectedRow_clamps_witness :
  (0 <= List_SelectedRow (validateSelectedRow (mkList ["a"; "b"; "c"] 7))
   < 3)%Z.
Proof.
  apply (proj2 (proj2 (proj2
           (validateSelectedRow_clamps (mkList ["a"; "b"; "c"] 7))))).
  discriminate.
Defined.

Lemma validateSelectedRow_idempotent_witness :
  validateSelectedRow (mkList ["a"; "b"; "c"] 1) = mkList ["a"; "b"; "c"] 1.
Proof.
  apply (proj1 (validateSelectedRow_idempotent (mkList ["a"; "b"; "c"] 1))).
  simpl. lia.
Defined.

Lemma struct_members_stay_in_struct_witness :
  let member :=
    mkASTNode
      {| ASTNode_ID := 0; ASTNode_NodeType := "StructDefinition";
         ASTNode_Name := "Account"; ASTNode_AbsolutePath := "";
         ASTNode_File := ""; ASTNode_BaseContracts := [];
         ASTNode_Members := [balancesDeclaration];
         ASTNode_Modifiers := []; ASTNode_Parameters := None;
         ASTNode_ReturnParameters := None; ASTNode_Visibility := "";
         ASTNode_StateMutability := ""; ASTNode_Kind := "";
         ASTNode_OverloadedDeclarations := []; ASTNode_BaseFunctions := [];
         ASTNode_Overrides := None; ASTNode_FunctionSelector := "";
         ASTNode_StorageLocation := ""; ASTNode_Constant := false;
         ASTNode_Mutability := ""; ASTNode_StateVariable := false;
         ASTNode_Value := JNull; ASTNode_TypeName := None;
         ASTNode_Literals := []; ASTNode_Nodes := []; ASTNode_Scope := 0;
         ASTNode_Operator := ""; ASTNode_SubExpression := None;
         ASTNode_Expression := None; ASTNode_Arguments := [];
         ASTNode_HexValue := ""; ASTNode_IsConstant := false;
         ASTNode_IsLValue := false; ASTNode_IsPure := false;
         ASTNode_LeftExpression := None; ASTNode_RightExpression := None;
         ASTNode_Indexed := None |} in
  Contract_Mappings (extractMember noNumbers (newContract "Bank") member) = [].
Proof.
  intros member.
  apply (struct_members_stay_in_struct noNumbers (newContract "Bank") member).
  reflexivity.
Defined.
